(** * TradeScope: the inference client and the chart viewer

    A shallow embedding of [services/geminiService.ts] (the validation of
    the analysis payload, [analyzeChart], [continueChart]) and of the
    zoom/pan state machine of the [ChartModal] component, with the
    properties of the design document proved or refuted on them.

    Conventions of the embedding.
    - A JavaScript value decoded from JSON is a [value]; property reads,
      truthiness, [typeof] and [Array.prototype.includes] follow
      ECMAScript on those values.
    - A JavaScript [number] is read as an exact rational ([Q]): the model
      covers the arithmetic the handlers perform, not the rounding of
      IEEE-754 doubles. Where rounding decides a property, the wheel
      handler is also given over binary64 floats (module [Doubles]).
    - [try]/[catch]/[throw] are a completion monad: a computation ends
      normally with a value or abruptly with the thrown object.
    - React state is an explicit record; a handler is a function from the
      state of the render it runs in (and its event) to the next state. *)

From Stdlib Require Import String Ascii List Bool QArith Qminmax Lia Lqa.
From Stdlib Require PrimFloat FloatClass.
Import ListNotations.

Set Warnings "-register-all".
Set Warnings "-inexact-float".
Local Open Scope string_scope.

(* ===================================================================== *)
(** ** JavaScript values and completions *)
(* ===================================================================== *)

Module Js.

(** Values: what [JSON.parse] can build, plus [undefined], which a read
    of an absent property produces. The properties of an object are kept
    as a list of bindings; a read takes the first binding of the name. *)
Inductive value : Type :=
| VUndefined
| VNull
| VBool (b : bool)
| VNum (n : Q)
| VStr (s : string)
| VArr (items : list value)
| VObj (props : list (string * value)).

(** An [Error] object: its [name] ("Error", "TypeError", "SyntaxError",
    ...) and its [message]. *)
Record Error : Type := mkError { name : string; message : string }.

(** Anything can be thrown in JavaScript: either an object for which
    [instanceof Error] holds, or some other value. *)
Inductive thrown : Type :=
| ErrorObject (e : Error)
| OtherThrown (v : value).

Definition instanceof_Error (t : thrown) : bool :=
  match t with
  | ErrorObject _ => true
  | OtherThrown _ => false
  end.

(** [new Error(msg)], [TypeError] raised by the engine. *)
Definition new_Error (msg : string) : thrown := ErrorObject (mkError "Error" msg).
Definition TypeError (msg : string) : thrown := ErrorObject (mkError "TypeError" msg).
Definition SyntaxError (msg : string) : thrown := ErrorObject (mkError "SyntaxError" msg).

(** Completion of a computation: normal with a value, or abrupt. *)
Inductive completion (A : Type) : Type :=
| Normal (a : A)
| Throw (t : thrown).
Arguments Normal {A} a.
Arguments Throw {A} t.

Definition bind {A B : Type} (c : completion A) (k : A -> completion B)
  : completion B :=
  match c with
  | Normal a => k a
  | Throw t => Throw t
  end.

(** [try { c } catch (error) { handler error }] *)
Definition try_catch {A : Type} (c : completion A)
  (handler : thrown -> completion A) : completion A :=
  match c with
  | Normal a => Normal a
  | Throw t => handler t
  end.

(** [a || b] on conditions whose evaluation may throw: [b] is evaluated
    only when [a] is false. *)
Definition orelse (a b : completion bool) : completion bool :=
  bind a (fun x => if x then Normal true else b).

(** ToBoolean. *)
Definition truthy (v : value) : bool :=
  match v with
  | VUndefined | VNull => false
  | VBool b => b
  | VNum n => negb (Qeq_bool n 0)
  | VStr s => negb (String.eqb s "")
  | VArr _ | VObj _ => true
  end.

(** The [typeof] operator. *)
Definition typeof (v : value) : string :=
  match v with
  | VUndefined => "undefined"
  | VNull => "object"
  | VBool _ => "boolean"
  | VNum _ => "number"
  | VStr _ => "string"
  | VArr _ | VObj _ => "object"
  end.

Fixpoint lookup (k : string) (props : list (string * value)) : value :=
  match props with
  | [] => VUndefined
  | (k', v) :: rest => if String.eqb k k' then v else lookup k rest
  end.

(** [v.k] for a name [k] that no built-in prototype defines (all the
    names the validator reads are such): a read on [undefined] or [null]
    throws a [TypeError], a read on an object yields the property or
    [undefined], a read on any other value yields [undefined]. *)
Definition get (v : value) (k : string) : completion value :=
  match v with
  | VUndefined =>
      Throw (TypeError ("Cannot read properties of undefined (reading '" ++ k ++ "')"))
  | VNull =>
      Throw (TypeError ("Cannot read properties of null (reading '" ++ k ++ "')"))
  | VObj props => Normal (lookup k props)
  | VBool _ | VNum _ | VStr _ | VArr _ => Normal VUndefined
  end.

(** SameValueZero, the comparison of [Array.prototype.includes]. Two
    objects are the same only when they are one reference; the arrays
    searched here hold string literals, so an object operand never
    matches. *)
Definition same_value_zero (a b : value) : bool :=
  match a, b with
  | VUndefined, VUndefined => true
  | VNull, VNull => true
  | VBool x, VBool y => Bool.eqb x y
  | VNum x, VNum y => Qeq_bool x y
  | VStr x, VStr y => String.eqb x y
  | _, _ => false
  end.

Definition includes (arr : list value) (v : value) : bool :=
  existsb (fun a => same_value_zero a v) arr.

End Js.

Import Js.

Declare Scope js_scope.
Delimit Scope js_scope with js.
Notation "x <- c ;; k" := (bind c (fun x => k))
  (at level 61, c at next level, right associativity) : js_scope.
Notation "a ||| b" := (orelse a b)
  (at level 50, left associativity) : js_scope.
Local Open Scope js_scope.

(* ===================================================================== *)
(** ** types.ts *)
(* ===================================================================== *)

Module Types.

(** [enum Recommendation { BUY = 'BUY', SELL = 'SELL', HOLD = 'HOLD' }];
    [Object.values(Recommendation)] lists the three strings in order. *)
Definition Recommendation_values : list value :=
  [VStr "BUY"; VStr "SELL"; VStr "HOLD"].

End Types.

(* ===================================================================== *)
(** ** services/geminiService.ts *)
(* ===================================================================== *)

Module GeminiService.

Import Types.

(** *** The structure check of [analyzeChart] (lines 98-117) *)

Definition not_truthy (c : completion value) : completion bool :=
  v <- c ;; Normal (negb (truthy v)).

Definition not_number (c : completion value) : completion bool :=
  v <- c ;; Normal (negb (String.eqb (typeof v) "number")).

(** [result.annotation.start.x] and the like. *)
Definition get2 (v : value) (k1 k2 : string) : completion value :=
  a <- get v k1 ;; get a k2.
Definition get3 (v : value) (k1 k2 k3 : string) : completion value :=
  a <- get v k1 ;; b <- get a k2 ;; get b k3.

(** The condition of the [if], disjunct by disjunct, left to right. *)
Definition invalid_structure (result : value) : completion bool :=
  not_truthy (get result "prediction") |||
  not_truthy (get result "recommendation") |||
  (r <- get result "recommendation" ;;
   Normal (negb (includes Recommendation_values r))) |||
  not_number (get result "confidence") |||
  not_truthy (get result "rationale") |||
  not_truthy (get result "annotation") |||
  not_truthy (get2 result "annotation" "type") |||
  not_truthy (get2 result "annotation" "start") |||
  not_number (get3 result "annotation" "start" "x") |||
  not_number (get3 result "annotation" "start" "y") |||
  not_truthy (get2 result "annotation" "end") |||
  not_number (get3 result "annotation" "end" "x") |||
  not_number (get3 result "annotation" "end" "y").

Definition invalid_structure_message : string :=
  "Invalid analysis data structure received from API.".

(** [if (...) { throw new Error(...) } return result as AnalysisResult;]
    The cast has no run-time effect: the value returned is [result]. *)
Definition validate (result : value) : completion value :=
  bad <- invalid_structure result ;;
  if bad then Throw (new_Error invalid_structure_message)
  else Normal result.

(** *** The boundary with the inference service

    The SDK is an external collaborator. A request carries an ordered
    list of parts and a configuration; a response exposes a text payload
    and candidates made of content parts. Every field of a response is
    optional in the SDK, and the code reads them unguarded. *)

Record Blob : Type := mkBlob { data : string; mimeType : string }.

Record Part : Type := mkPart {
  inlineData : option Blob;
  part_text : option string
}.

Inductive Modality : Type := TEXT | IMAGE.

(** The declared output schema ([annotationSchema], [responseSchema]),
    descriptions left out. *)
Inductive Schema : Type :=
| SString (enum : list string)
| SNumber
| SInteger
| SObject (properties : list (string * Schema)) (required : list string).

Definition pointSchema : Schema :=
  SObject [("x", SNumber); ("y", SNumber)] ["x"; "y"].

Definition annotationSchema : Schema :=
  SObject [("type", SString ["arrow"; "line"]);
           ("start", pointSchema);
           ("end", pointSchema)]
          ["type"; "start"; "end"].

Definition responseSchema : Schema :=
  SObject [("prediction", SString []);
           ("recommendation", SString ["BUY"; "SELL"; "HOLD"]);
           ("confidence", SInteger);
           ("rationale", SString []);
           ("annotation", annotationSchema)]
          ["prediction"; "recommendation"; "confidence"; "rationale";
           "annotation"].

Record Config : Type := mkConfig {
  responseMimeType : option string;
  config_responseSchema : option Schema;
  temperature : option Q;
  responseModalities : list Modality
}.

Record Request : Type := mkRequest {
  request_model : string;
  contents : list Part;
  config : Config
}.

Record Content : Type := mkContent { parts : option (list Part) }.
Record Candidate : Type := mkCandidate { content : option Content }.

Record GenerateContentResponse : Type := mkResponse {
  response_text : option string;
  candidates : option (list Candidate)
}.

Definition model : string := "gemini-2.5-flash".

Definition analysis_failed_prefix : string := "Failed to analyze chart: ".
Definition analysis_unknown_message : string :=
  "An unknown error occurred during chart analysis.".
Definition no_image_message : string :=
  "No image was generated in the response.".
Definition continuation_failed_prefix : string := "Failed to continue chart: ".
Definition continuation_unknown_message : string :=
  "An unknown error occurred during chart continuation.".

(** [for (const part of parts) { if (part.inlineData) return
    part.inlineData.data; }]: the data of the first part that has inline
    data, if there is one. *)
Fixpoint first_inline_data (ps : list Part) : option string :=
  match ps with
  | [] => None
  | part :: rest =>
      match inlineData part with
      | Some blob => Some (data blob)
      | None => first_inline_data rest
      end
  end.

Section Client.

(** Built-ins and the service, as the module finds them. [JSON.parse]
    yields a value or throws a [SyntaxError] with some message;
    [String.prototype.trim] is a total function on strings;
    [ai.models.generateContent] completes normally with a response or
    abruptly with whatever the SDK throws. The two prompts are fixed
    texts (the second built from the analysis). *)
Variable JSON_parse_result : string -> value + string.
Variable trim : string -> string.
Variable generateContent : Request -> completion GenerateContentResponse.
Variable prompt : string.
Variable generationPrompt : value -> string.

Definition JSON_parse (s : string) : completion value :=
  match JSON_parse_result s with
  | inl v => Normal v
  | inr msg => Throw (SyntaxError msg)
  end.

(** [response.text.trim()] *)
Definition text_trim (response : GenerateContentResponse)
  : completion string :=
  match response_text response with
  | Some s => Normal (trim s)
  | None =>
      Throw (TypeError "Cannot read properties of undefined (reading 'trim')")
  end.

Definition imagePart (imageBase64 mime : string) : Part :=
  mkPart (Some (mkBlob imageBase64 mime)) None.

(** The request of [analyzeChart]: the image, then the instruction, with
    the declared schema and a low temperature. *)
Definition analyze_request (imageBase64 mime : string) : Request :=
  mkRequest model
    [imagePart imageBase64 mime; mkPart None (Some prompt)]
    (mkConfig (Some "application/json") (Some responseSchema)
       (Some 0.2%Q) []).

(** The body of the [try] block of [analyzeChart]. *)
Definition analyzeChart_try (imageBase64 mime : string) : completion value :=
  response <- generateContent (analyze_request imageBase64 mime) ;;
  jsonString <- text_trim response ;;
  result <- JSON_parse jsonString ;;
  validate result.

(** The [catch] clause of [analyzeChart]. *)
Definition analyzeChart_catch (error : thrown) : completion value :=
  match error with
  | ErrorObject e => Throw (new_Error (analysis_failed_prefix ++ message e))
  | OtherThrown _ => Throw (new_Error analysis_unknown_message)
  end.

Definition analyzeChart (imageBase64 mime : string) : completion value :=
  try_catch (analyzeChart_try imageBase64 mime) analyzeChart_catch.

(** [response.candidates[0].content.parts], each step a property read
    that throws on [undefined]. *)
Definition first_candidate_parts (response : GenerateContentResponse)
  : completion (list Part) :=
  match candidates response with
  | None => Throw (TypeError "Cannot read properties of undefined (reading '0')")
  | Some [] =>
      Throw (TypeError "Cannot read properties of undefined (reading 'content')")
  | Some (c :: _) =>
      match content c with
      | None =>
          Throw (TypeError "Cannot read properties of undefined (reading 'parts')")
      | Some ct =>
          match parts ct with
          | None =>
              Throw (TypeError
                "response.candidates[0].content.parts is not iterable")
          | Some ps => Normal ps
          end
      end
  end.

(** The request of [continueChart]: the same image, the instruction
    built from the analysis, image output asked for. *)
Definition continuation_request (imageBase64 mime : string)
  (analysis : value) : Request :=
  mkRequest "gemini-2.5-flash-image"
    [imagePart imageBase64 mime;
     mkPart None (Some (generationPrompt analysis))]
    (mkConfig None None None [IMAGE]).

Definition continueChart_try (imageBase64 mime : string) (analysis : value)
  : completion string :=
  response <- generateContent
    (continuation_request imageBase64 mime analysis) ;;
  ps <- first_candidate_parts response ;;
  match first_inline_data ps with
  | Some d => Normal d
  | None => Throw (new_Error no_image_message)
  end.

Definition continueChart_catch (error : thrown) : completion string :=
  match error with
  | ErrorObject e =>
      Throw (new_Error (continuation_failed_prefix ++ message e))
  | OtherThrown _ => Throw (new_Error continuation_unknown_message)
  end.

Definition continueChart (imageBase64 mime : string) (analysis : value)
  : completion string :=
  try_catch (continueChart_try imageBase64 mime analysis) continueChart_catch.

End Client.

End GeminiService.

(* ===================================================================== *)
(** ** components/ChartModal.tsx: the viewer's state machine *)
(* ===================================================================== *)

Module ChartModal.

Local Open Scope Q_scope.

Record Point : Type := mkPoint { x : Q; y : Q }.

(** The fields the handlers read: of the container's bounding rectangle,
    of a mouse event, of a wheel event (a mouse event with deltas). *)
Record DOMRect : Type := mkRect { left : Q; top : Q }.
Record MouseEvent : Type := mkMouse { clientX : Q; clientY : Q }.
Record WheelEvent : Type := mkWheel { pointer :> MouseEvent; deltaY : Q }.

Record ChartModalProps : Type := mkProps {
  isOpen : bool;
  imageSrc : string;
  imageBase64 : string;
  mimeType : string;
  result : option value
}.

(** The component's [useState] cells and the [dragStartPos] ref. *)
Record State : Type := mkState {
  scale : Q;
  position : Point;
  isDragging : bool;
  dragStartPos : Point;
  isGenerating : bool;
  continuedImageSrc : option string;
  viewingOriginal : bool;
  generationError : option string
}.

Definition initial : State :=
  mkState 1 (mkPoint 0 0) false (mkPoint 0 0) false None true None.

Definition setScale (v : Q) (st : State) : State :=
  mkState v (position st) (isDragging st) (dragStartPos st)
    (isGenerating st) (continuedImageSrc st) (viewingOriginal st)
    (generationError st).

Definition setPosition (v : Point) (st : State) : State :=
  mkState (scale st) v (isDragging st) (dragStartPos st)
    (isGenerating st) (continuedImageSrc st) (viewingOriginal st)
    (generationError st).

Definition setIsDragging (v : bool) (st : State) : State :=
  mkState (scale st) (position st) v (dragStartPos st)
    (isGenerating st) (continuedImageSrc st) (viewingOriginal st)
    (generationError st).

Definition set_dragStartPos (v : Point) (st : State) : State :=
  mkState (scale st) (position st) (isDragging st) v
    (isGenerating st) (continuedImageSrc st) (viewingOriginal st)
    (generationError st).

Definition setIsGenerating (v : bool) (st : State) : State :=
  mkState (scale st) (position st) (isDragging st) (dragStartPos st)
    v (continuedImageSrc st) (viewingOriginal st) (generationError st).

Definition setContinuedImageSrc (v : option string) (st : State) : State :=
  mkState (scale st) (position st) (isDragging st) (dragStartPos st)
    (isGenerating st) v (viewingOriginal st) (generationError st).

Definition setViewingOriginal (v : bool) (st : State) : State :=
  mkState (scale st) (position st) (isDragging st) (dragStartPos st)
    (isGenerating st) (continuedImageSrc st) v (generationError st).

Definition setGenerationError (v : option string) (st : State) : State :=
  mkState (scale st) (position st) (isDragging st) (dragStartPos st)
    (isGenerating st) (continuedImageSrc st) (viewingOriginal st) v.

Definition MIN_SCALE : Q := 1.
Definition MAX_SCALE : Q := 8.
Definition ZOOM_SENSITIVITY : Q := 0.002.

Definition handleReset (st : State) : State :=
  setPosition (mkPoint 0 0) (setScale 1 st).

Definition viewOriginal (st : State) : State :=
  if negb (viewingOriginal st)
  then handleReset (setViewingOriginal true st)
  else st.

Definition viewPredicted (st : State) : State :=
  match viewingOriginal st, continuedImageSrc st with
  | true, Some _ => handleReset (setViewingOriginal false st)
  | _, _ => st
  end.

(** The body of the timeout the effect arms when [isOpen] turns false. *)
Definition closed_effect (st : State) : State :=
  setGenerationError None
    (setIsGenerating false
       (setViewingOriginal true
          (setContinuedImageSrc None (handleReset st)))).

Definition handleMouseDown (e : MouseEvent) (st : State) : State :=
  if Qeq_bool (scale st) 1 then st
  else
    set_dragStartPos
      (mkPoint (clientX e - x (position st)) (clientY e - y (position st)))
      (setIsDragging true st).

Definition handleMouseUp (st : State) : State :=
  setIsDragging false st.

Definition handleMouseMove (e : MouseEvent) (st : State) : State :=
  if negb (isDragging st) then st
  else
    let newX := clientX e - x (dragStartPos st) in
    let newY := clientY e - y (dragStartPos st) in
    setPosition (mkPoint newX newY) st.

(** [Math.max(MIN_SCALE, Math.min(MAX_SCALE, scale * (1 + delta)))] with
    [delta = -e.deltaY * ZOOM_SENSITIVITY]. *)
Definition newScale (e : WheelEvent) (st : State) : Q :=
  let delta := - deltaY e * ZOOM_SENSITIVITY in
  Qmax MIN_SCALE (Qmin MAX_SCALE (scale st * (1 + delta))).

(** [container] is [containerRef.current]: the element the handler is
    attached to once it is mounted, seen through its bounding rectangle. *)
Definition handleWheel (container : option DOMRect) (e : WheelEvent)
  (st : State) : State :=
  match container with
  | None => st
  | Some rect =>
      let newScale := newScale e st in
      if Qeq_bool newScale (scale st) then st
      else
        let mouseX := clientX e - left rect in
        let mouseY := clientY e - top rect in
        let imageX := (mouseX - x (position st)) / scale st in
        let imageY := (mouseY - y (position st)) / scale st in
        let newX := mouseX - imageX * newScale in
        let newY := mouseY - imageY * newScale in
        setPosition (mkPoint newX newY) (setScale newScale st)
  end.

(** [handleGenerateContinuation], in the two halves the [await] cuts it
    into: what runs before the call is issued, and what runs when the
    call settles (on the state of that moment). *)
Definition generation_begin (props : ChartModalProps) (st : State)
  : option State :=
  match result props with
  | None => None
  | Some _ =>
      if isGenerating st then None
      else Some (setGenerationError None (setIsGenerating true st))
  end.

Definition generation_settle (outcome : completion string) (st : State)
  : State :=
  setIsGenerating false
    match outcome with
    | Normal newImageBase64 =>
        handleReset
          (setViewingOriginal false
             (setContinuedImageSrc
                (Some ("data:image/png;base64," ++ newImageBase64)%string) st))
    | Throw (ErrorObject error) =>
        setGenerationError (Some (message error)) st
    | Throw (OtherThrown _) =>
        setGenerationError (Some "An unknown error occurred."%string) st
    end.

Section Generate.

(** [continueChart] as imported from the service module. *)
Variable continueChart : string -> string -> value -> completion string.

Definition handleGenerateContinuation (props : ChartModalProps) (st : State)
  : State :=
  match result props, generation_begin props st with
  | Some r, Some st1 =>
      generation_settle
        (continueChart (imageBase64 props) (mimeType props) r) st1
  | _, _ => st
  end.

End Generate.

(** What the render shows: the image source, and whether the "Generate
    Continuation" button is there and enabled. *)
Definition displayImageSrc (props : ChartModalProps) (st : State) : string :=
  match viewingOriginal st, continuedImageSrc st with
  | false, Some src => src
  | _, _ => imageSrc props
  end.

Definition generate_button_enabled (st : State) : bool :=
  match continuedImageSrc st with
  | Some _ => false
  | None => negb (isGenerating st)
  end.

(** The events the viewer reacts to, and a run of the state machine. *)
Inductive Event : Type :=
| Wheel (container : option DOMRect) (e : WheelEvent)
| MouseDown (e : MouseEvent)
| MouseUp
| MouseLeave
| MouseMove (e : MouseEvent)
| ResetClick
| ViewOriginal
| ViewPredicted
| GenerationSettled (outcome : completion string)
| Closed.

Definition step (st : State) (ev : Event) : State :=
  match ev with
  | Wheel container e => handleWheel container e st
  | MouseDown e => handleMouseDown e st
  | MouseUp | MouseLeave => handleMouseUp st
  | MouseMove e => handleMouseMove e st
  | ResetClick => handleReset st
  | ViewOriginal => viewOriginal st
  | ViewPredicted => viewPredicted st
  | GenerationSettled outcome => generation_settle outcome st
  | Closed => closed_effect st
  end.

Definition run (evs : list Event) (st : State) : State :=
  fold_left step evs st.

(** The states a sequence of wheel events goes through, one per event. *)
Fixpoint wheel_states (st : State)
  (evs : list (option DOMRect * WheelEvent)) : list State :=
  match evs with
  | [] => []
  | (container, e) :: rest =>
      let st' := handleWheel container e st in
      st' :: wheel_states st' rest
  end.

Definition scale_in_range (st : State) : Prop :=
  MIN_SCALE <= scale st /\ scale st <= MAX_SCALE.

(** *** What the component renders from its state *)

(** [getAnnotationColor]: a [switch] on the recommendation, compared
    with [===] against the three enum strings. *)
Definition getAnnotationColor (recommendation : value) : string :=
  match recommendation with
  | VStr s =>
      if String.eqb s "BUY" then "#22c55e"
      else if String.eqb s "SELL" then "#ef4444"
      else if String.eqb s "HOLD" then "#eab308"
      else "#ffffff"
  | _ => "#ffffff"
  end.

(** [scale > 1 ? (isDragging ? 'cursor-grabbing' : 'cursor-grab')
    : 'cursor-default'] *)
Definition cursorClass (st : State) : string :=
  if negb (Qle_bool (scale st) 1)
  then (if isDragging st then "cursor-grabbing" else "cursor-grab")
  else "cursor-default".

(** [annotation && viewingOriginal]: the overlay is drawn only over the
    original image. *)
Definition overlay_shown (annotation : value) (st : State) : bool :=
  truthy annotation && viewingOriginal st.

End ChartModal.

(* ===================================================================== *)
(** ** The wheel handler over IEEE-754 doubles *)
(* ===================================================================== *)

(** The same [handleWheel], with every number a binary64 float and every
    operation the rounded one of the engine. *)
Module Doubles.

Import FloatClass PrimFloat.
Local Open Scope float_scope.

Definition is_pos_zero (f : float) : bool :=
  match classify f with PZero => true | _ => false end.

Definition is_neg_zero (f : float) : bool :=
  match classify f with NZero => true | _ => false end.

(** [Math.max(a, b)] and [Math.min(a, b)]: NaN when an argument is NaN,
    [+0] above [-0], the comparison otherwise. *)
Definition Math_max (a b : float) : float :=
  if orb (is_nan a) (is_nan b) then nan
  else if andb (is_pos_zero b) (is_neg_zero a) then b
  else if a <? b then b else a.

Definition Math_min (a b : float) : float :=
  if orb (is_nan a) (is_nan b) then nan
  else if andb (is_neg_zero b) (is_pos_zero a) then b
  else if b <? a then b else a.

Record Point : Type := mkPoint { x : float; y : float }.
Record DOMRect : Type := mkRect { left : float; top : float }.
Record WheelEvent : Type := mkWheel {
  clientX : float;
  clientY : float;
  deltaY : float
}.

Record State : Type := mkState {
  scale : float;
  position : Point;
  isDragging : bool;
  dragStartPos : Point;
  isGenerating : bool;
  continuedImageSrc : option string;
  viewingOriginal : bool;
  generationError : option string
}.

Definition initial : State :=
  mkState 1 (mkPoint 0 0) false (mkPoint 0 0) false None true None.

Definition setScale (v : float) (st : State) : State :=
  mkState v (position st) (isDragging st) (dragStartPos st)
    (isGenerating st) (continuedImageSrc st) (viewingOriginal st)
    (generationError st).

Definition setPosition (v : Point) (st : State) : State :=
  mkState (scale st) v (isDragging st) (dragStartPos st)
    (isGenerating st) (continuedImageSrc st) (viewingOriginal st)
    (generationError st).

Definition MIN_SCALE : float := 1.
Definition MAX_SCALE : float := 8.
Definition ZOOM_SENSITIVITY : float := 0.002.

Definition newScale (e : WheelEvent) (st : State) : float :=
  let delta := - deltaY e * ZOOM_SENSITIVITY in
  Math_max MIN_SCALE (Math_min MAX_SCALE (scale st * (1 + delta))).

Definition handleWheel (container : option DOMRect) (e : WheelEvent)
  (st : State) : State :=
  match container with
  | None => st
  | Some rect =>
      let newScale := newScale e st in
      if newScale =? scale st then st
      else
        let mouseX := clientX e - left rect in
        let mouseY := clientY e - top rect in
        let imageX := (mouseX - x (position st)) / scale st in
        let imageY := (mouseY - y (position st)) / scale st in
        let newX := mouseX - imageX * newScale in
        let newY := mouseY - imageY * newScale in
        setPosition (mkPoint newX newY) (setScale newScale st)
  end.


End Doubles.

(* ===================================================================== *)
(** ** components/AnalysisDisplay.tsx *)
(* ===================================================================== *)

Module AnalysisDisplay.

Definition fallback_classes : string :=
  "bg-slate-500/20 text-slate-400 border-slate-500".

Definition getRecommendationClasses (recommendation : value) : string :=
  match recommendation with
  | VStr s =>
      if String.eqb s "BUY"
      then "bg-green-500/20 text-green-400 border-green-500"
      else if String.eqb s "SELL"
      then "bg-red-500/20 text-red-400 border-red-500"
      else if String.eqb s "HOLD"
      then "bg-yellow-500/20 text-yellow-400 border-yellow-500"
      else fallback_classes
  | _ => fallback_classes
  end.

End AnalysisDisplay.

(* ===================================================================== *)
(** ** App.tsx: upload, analysis and the modal's props *)
(* ===================================================================== *)

Module App.

(** [String.prototype.split] with a one-character separator: the pieces
    between the separators, at least one piece. *)
Fixpoint split (sep : Ascii.ascii) (s : string) : list string :=
  match s with
  | EmptyString => [EmptyString]
  | String c rest =>
      if Ascii.eqb c sep then EmptyString :: split sep rest
      else
        match split sep rest with
        | [] => [String c EmptyString]
        | piece :: pieces => String c piece :: pieces
        end
  end.

Definition comma : Ascii.ascii := ","%char.

(** [reader.onload] of [fileToBase64]: [result.split(',')[1]], which is
    [undefined] ([None]) when the result holds no comma. *)
Definition fileToBase64_onload (result : string) : option string :=
  nth_error (split comma result) 1.

(** The fields of a [File] the component reads. *)
Record File : Type := mkFile { file_name : string; file_type : string }.

Record State : Type := mkState {
  imageFile : option File;
  imageBase64 : option string;
  analysis : option value;
  isLoading : bool;
  error : option string;
  isModalOpen : bool
}.

Definition initial : State := mkState None None None false None false.

Definition setImageFile (v : option File) (st : State) : State :=
  mkState v (imageBase64 st) (analysis st) (isLoading st) (error st)
    (isModalOpen st).

Definition setImageBase64 (v : option string) (st : State) : State :=
  mkState (imageFile st) v (analysis st) (isLoading st) (error st)
    (isModalOpen st).

Definition setAnalysis (v : option value) (st : State) : State :=
  mkState (imageFile st) (imageBase64 st) v (isLoading st) (error st)
    (isModalOpen st).

Definition setIsLoading (v : bool) (st : State) : State :=
  mkState (imageFile st) (imageBase64 st) (analysis st) v (error st)
    (isModalOpen st).

Definition setError (v : option string) (st : State) : State :=
  mkState (imageFile st) (imageBase64 st) (analysis st) (isLoading st) v
    (isModalOpen st).

Definition setIsModalOpen (v : bool) (st : State) : State :=
  mkState (imageFile st) (imageBase64 st) (analysis st) (isLoading st)
    (error st) v.

(** Truthiness of the cells the handlers and the render test: a string
    cell is truthy when it is there and not empty, the analysis when it
    is there and a truthy value. *)
Definition truthy_string (v : option string) : bool :=
  match v with
  | Some s => negb (String.eqb s "")
  | None => false
  end.

Definition truthy_analysis (v : option value) : bool :=
  match v with
  | Some r => truthy r
  | None => false
  end.

Definition is_some {A : Type} (v : option A) : bool :=
  match v with Some _ => true | None => false end.

Definition handleReset (st : State) : State :=
  setIsModalOpen false
    (setError None
       (setIsLoading false
          (setAnalysis None (setImageBase64 None (setImageFile None st))))).

(** [handleImageUpload], cut at its [await]: the reset and the file
    first, then the outcome of reading the file. *)
Definition upload_begin (file : File) (st : State) : State :=
  setImageFile (Some file) (handleReset st).

Definition upload_settle (read : completion (option string)) (st : State)
  : State :=
  match read with
  | Normal base64String => setImageBase64 base64String st
  | Throw _ => setError (Some "Could not process the image file.") st
  end.

Definition upload_first_message : string := "Please upload an image first.".

(** [handleAnalyzeClick], cut at its [await]. [analyze_begin] is [None]
    when the guard returns early, after setting the guidance message
    ([analyze_refused]). *)
Definition analyze_ready (st : State) : option (string * File) :=
  match imageBase64 st, imageFile st with
  | Some b, Some f => if String.eqb b "" then None else Some (b, f)
  | _, _ => None
  end.

Definition analyze_refused (st : State) : State :=
  setError (Some upload_first_message) st.

Definition analyze_begin (st : State) : State :=
  setAnalysis None (setError None (setIsLoading true st)).

Definition analyze_settle (outcome : completion value) (st : State) : State :=
  setIsLoading false
    match outcome with
    | Normal r => setAnalysis (Some r) st
    | Throw (ErrorObject err) => setError (Some (message err)) st
    | Throw (OtherThrown _) => setError (Some "An unknown error occurred.") st
    end.

Section Handlers.

(** [analyzeChart] as imported from the service module; the object URL
    the browser makes for a file. *)
Variable analyzeChart : string -> string -> completion value.
Variable createObjectURL : File -> string.

Definition handleAnalyzeClick (st : State) : State :=
  match analyze_ready st with
  | None => analyze_refused st
  | Some (b, f) =>
      analyze_settle (analyzeChart b (file_type f)) (analyze_begin st)
  end.

(** [<ChartModal ... />] is rendered under
    [imageFile && analysis && imageBase64], with these props. *)
Definition modal_props (st : State) : option ChartModal.ChartModalProps :=
  match imageFile st, analysis st, imageBase64 st with
  | Some f, Some r, Some b =>
      if truthy r && negb (String.eqb b "")
      then Some (ChartModal.mkProps (isModalOpen st) (createObjectURL f) b
                   (file_type f) (Some r))
      else None
  | _, _, _ => None
  end.

End Handlers.

(** [onClick={() => analysis && setIsModalOpen(true)}] on the preview,
    and [onClose]. *)
Definition expand_click (st : State) : State :=
  if truthy_analysis (analysis st) then setIsModalOpen true st else st.

Definition close_modal (st : State) : State := setIsModalOpen false st.

(** The events of the shell. An analyze click carries what the service
    does for that call. *)
Inductive Event : Type :=
| Upload (file : File)
| FileRead (read : completion (option string))
| AnalyzeClick
    (service : GeminiService.Request ->
               completion GeminiService.GenerateContentResponse)
| Clear
| Expand
| CloseModal.

Section Run.

Variable JSON_parse_result : string -> value + string.
Variable trim : string -> string.
Variable prompt : string.

Definition step (st : State) (ev : Event) : State :=
  match ev with
  | Upload file => upload_begin file st
  | FileRead read => upload_settle read st
  | AnalyzeClick service =>
      handleAnalyzeClick
        (GeminiService.analyzeChart JSON_parse_result trim service prompt) st
  | Clear => handleReset st
  | Expand => expand_click st
  | CloseModal => close_modal st
  end.

Definition run (evs : list Event) (st : State) : State :=
  fold_left step evs st.

End Run.

End App.

(* ===================================================================== *)
(** ** The design document's vocabulary *)
(* ===================================================================== *)

Module Design.

Import Types GeminiService ChartModal.

(** The field [k] of a decoded value: [undefined] when the value is not
    an object or has no such property. *)
Definition field (v : value) (k : string) : value :=
  match v with
  | VObj props => lookup k props
  | _ => VUndefined
  end.

Definition at_path (v : value) (path : list string) : value :=
  fold_left field path v.

Definition present (v : value) : bool :=
  match v with VUndefined => false | _ => true end.

Definition is_string (v : value) : bool :=
  match v with VStr _ => true | _ => false end.

Definition is_number (v : value) : bool :=
  match v with VNum _ => true | _ => false end.

Definition nonempty_string (v : value) : bool :=
  match v with VStr s => negb (String.eqb s "") | _ => false end.

(** One of the three literals, compared exactly. *)
Definition listed_recommendation (v : value) : bool :=
  match v with
  | VStr s => String.eqb s "BUY" || String.eqb s "SELL" || String.eqb s "HOLD"
  | _ => false
  end.

Definition numeric_point (p : value) : bool :=
  is_number (field p "x") && is_number (field p "y").

(** The validation rules as section 4.1 words them: prediction and
    rationale present and strings; recommendation one of the literals;
    confidence a number; annotation present, with a type and two
    numeric points. *)
Definition section_4_1 (v : value) : bool :=
  is_string (field v "prediction") &&
  is_string (field v "rationale") &&
  listed_recommendation (field v "recommendation") &&
  is_number (field v "confidence") &&
  present (field v "annotation") &&
  present (at_path v ["annotation"; "type"]) &&
  numeric_point (at_path v ["annotation"; "start"]) &&
  numeric_point (at_path v ["annotation"; "end"]).

(** The same rules with the two places tightened where the code tests
    truthiness: the two texts are non-empty strings and the annotation's
    type is truthy. *)
Definition section_4_1_nonempty (v : value) : bool :=
  nonempty_string (field v "prediction") &&
  nonempty_string (field v "rationale") &&
  listed_recommendation (field v "recommendation") &&
  is_number (field v "confidence") &&
  truthy (at_path v ["annotation"; "type"]) &&
  numeric_point (at_path v ["annotation"; "start"]) &&
  numeric_point (at_path v ["annotation"; "end"]).

(** What the structure check lets through, exactly. *)
Definition accepts (v : value) : bool :=
  truthy (field v "prediction") &&
  listed_recommendation (field v "recommendation") &&
  is_number (field v "confidence") &&
  truthy (field v "rationale") &&
  truthy (at_path v ["annotation"; "type"]) &&
  numeric_point (at_path v ["annotation"; "start"]) &&
  numeric_point (at_path v ["annotation"; "end"]).

(** The error the check ends with when it does not accept: the
    [TypeError] of the first property read when the decoded value is
    [null] (or [undefined]), the generic structure error otherwise. *)
Definition rejection (v : value) : Error :=
  match get v "prediction" with
  | Throw (ErrorObject e) => e
  | _ => mkError "Error" invalid_structure_message
  end.

(** The required fields, as paths from the root. *)
Definition required_paths : list (list string) :=
  [ ["prediction"]; ["recommendation"]; ["confidence"]; ["rationale"];
    ["annotation"];
    ["annotation"; "type"]; ["annotation"; "start"]; ["annotation"; "end"];
    ["annotation"; "start"; "x"]; ["annotation"; "start"; "y"];
    ["annotation"; "end"; "x"]; ["annotation"; "end"; "y"] ].

Definition missing_required_field (v : value) : Prop :=
  exists path, In path required_paths /\ at_path v path = VUndefined.

(** [clamp(v, lo, hi)] *)
Definition clamp (v lo hi : Q) : Q := Qmax lo (Qmin hi v).

(** The scenario payload of section 8, and variants of it. *)
Definition point (px py : Q) : value :=
  VObj [("x", VNum px); ("y", VNum py)].

Definition payload (prediction recommendation confidence rationale type
  : value) : value :=
  VObj [("prediction", prediction);
        ("recommendation", recommendation);
        ("confidence", confidence);
        ("rationale", rationale);
        ("annotation",
          VObj [("type", type);
                ("start", point 10 50);
                ("end", point 90 55)])].

Definition sideways_drift : value :=
  payload (VStr "sideways drift") (VStr "HOLD") (VNum 55) (VStr "...")
    (VStr "line").

Definition empty_prediction : value :=
  payload (VStr "") (VStr "HOLD") (VNum 55) (VStr "...") (VStr "line").

Definition empty_rationale : value :=
  payload (VStr "sideways drift") (VStr "HOLD") (VNum 55) (VStr "")
    (VStr "line").

Definition numeric_prediction : value :=
  payload (VNum 5) (VStr "HOLD") (VNum 55) (VStr "...") (VStr "line").

Definition numeric_rationale : value :=
  payload (VStr "sideways drift") (VStr "HOLD") (VNum 55) (VBool true)
    (VStr "line").

Definition strong_buy : value :=
  payload (VStr "up") (VStr "STRONG_BUY") (VNum 90) (VStr "...")
    (VStr "arrow").

(** The reset postcondition as the design document words it: scale 1,
    offset (0, 0), dragging cleared. *)
Definition reset_postcondition (st : State) : Prop :=
  (scale st == 1)%Q /\ position st = mkPoint 0 0 /\ isDragging st = false.

(** A viewer in the middle of a drag: one notch of zoom in at (300, 200)
    in a container placed at (20, 10), then the button pressed there. *)
Definition viewer_rect : DOMRect := mkRect 20 10.
Definition zoom_in : WheelEvent := mkWheel (mkMouse 300 200) (-100).
Definition press : MouseEvent := mkMouse 300 200.

Definition dragging_state : State :=
  run [Wheel (Some viewer_rect) zoom_in; MouseDown press] initial.

Definition chart_props : ChartModalProps :=
  mkProps true "blob:chart" "iVBORw0KGgo=" "image/png" (Some sideways_drift).

(** Stand-ins for the built-ins and the service, to run the client on:
    a decoder that yields a fixed value, a decoder that fails, a service
    that answers a fixed text, one that answers fixed content parts, and
    one that is unreachable. *)
Definition decodes_to (v : value) : string -> value + string :=
  fun _ => inl v.

Definition decode_fails (msg : string) : string -> value + string :=
  fun _ => inr msg.

Definition answers_text (s : string)
  : Request -> completion GenerateContentResponse :=
  fun _ => Normal (mkResponse (Some s) None).

Definition answers_parts (ps : list Part)
  : Request -> completion GenerateContentResponse :=
  fun _ => Normal (mkResponse None (Some [mkCandidate (Some (mkContent (Some ps)))])).

Definition unreachable : Request -> completion GenerateContentResponse :=
  fun _ => Throw (TypeError "fetch failed").

Definition no_trim : string -> string := fun s => s.

Definition prompt_of (_ : value) : string := "continue".

End Design.

(* ===================================================================== *)
(** ** Vocabulary for the further properties *)
(* ===================================================================== *)

Module Scenes.

Import Types GeminiService ChartModal Design.

(** A payload with every field a parameter. *)
Definition full_payload (prediction recommendation confidence rationale
  type : value) (sx sy ex ey : Q) : value :=
  VObj [("prediction", prediction);
        ("recommendation", recommendation);
        ("confidence", confidence);
        ("rationale", rationale);
        ("annotation",
          VObj [("type", type);
                ("start", point sx sy);
                ("end", point ex ey)])].

Definition is_object (v : value) : bool :=
  match v with VObj _ => true | _ => false end.

(** A whole drag: press, moves, release. *)
Definition drag_run (down : MouseEvent) (moves : list MouseEvent)
  (st : State) : State :=
  handleMouseUp
    (fold_left (fun s m => handleMouseMove m s) moves
       (handleMouseDown down st)).

Definition is_mouse_event (ev : Event) : bool :=
  match ev with
  | MouseDown _ | MouseUp | MouseLeave | MouseMove _ => true
  | _ => false
  end.

(** The result a [FileReader] gives for a file: the header up to the
    comma, then the encoded bytes. *)
Definition data_url (mime base64 : string) : string :=
  "data:" ++ mime ++ ";base64," ++ base64.

Definition no_comma (s : string) : Prop :=
  ~ In App.comma (list_ascii_of_string s).

(** Whether a text occurs inside another. *)
Fixpoint occurs_in (needle hay : string) : bool :=
  if String.prefix needle hay then true
  else
    match hay with
    | EmptyString => false
    | String _ rest => occurs_in needle rest
    end.





Definition throws_boom : Request -> completion GenerateContentResponse :=
  fun _ => Throw (OtherThrown (VStr "boom")).

Definition chart_file : App.File := App.mkFile "chart.png" "image/png".

Definition object_url (f : App.File) : string := "blob:" ++ App.file_name f.

Definition uploaded : App.State :=
  App.upload_settle (Normal (Some "iVBORw0KGgo="))
    (App.upload_begin chart_file App.initial).

End Scenes.

(* ===================================================================== *)
(** ** Facts about the structure check *)
(* ===================================================================== *)

Module ValidationFacts.

Import Types GeminiService Design.

Lemma typeof_number (v : value) :
  String.eqb (typeof v) "number" = is_number v.
Proof. destruct v; reflexivity. Qed.

Lemma includes_listed (v : value) :
  includes Recommendation_values v = listed_recommendation v.
Proof.
  destruct v; try reflexivity.
  unfold includes, Recommendation_values, listed_recommendation.
  cbn [existsb same_value_zero].
  rewrite (String.eqb_sym "BUY"), (String.eqb_sym "SELL"),
    (String.eqb_sym "HOLD").
  now rewrite orb_false_r, orb_assoc.
Qed.

Lemma listed_truthy (v : value) :
  listed_recommendation v = true -> truthy v = true.
Proof.
  destruct v; simpl; try discriminate.
  destruct (String.eqb_spec s ""); [subst; discriminate | reflexivity].
Qed.

Lemma orelse_Normal (c : bool) (b : completion bool) :
  (Normal c ||| b) = if c then Normal true else b.
Proof. reflexivity. Qed.

(** Reading a property of a value that is not an object never yields a
    truthy value or a number: either it throws or it is [undefined]. *)
Ltac split_object v p :=
  let b := fresh "b" in
  let n := fresh "n" in
  let s := fresh "s" in
  destruct v as [ | | b | n | s | ? | p];
  [ reflexivity
  | reflexivity
  | destruct b; reflexivity
  | cbn [truthy]; destruct (Qeq_bool n 0); reflexivity
  | cbn [truthy]; destruct (String.eqb s ""); reflexivity
  | reflexivity
  | ].

(** The check computes [accepts]: it returns its argument when [accepts]
    holds and throws [rejection] otherwise. *)
Lemma validate_accepts (v : value) :
  validate v =
  if accepts v then Normal v else Throw (ErrorObject (rejection v)).
Proof.
  unfold validate, invalid_structure, rejection, accepts, at_path,
    numeric_point, not_truthy, not_number, get2, get3.
  destruct v as [ | | b | n | s | items | props]; try reflexivity.
  cbn [get bind field fold_left].
  rewrite includes_listed, !typeof_number, !orelse_Normal.
  destruct (truthy (lookup "prediction" props)); [|reflexivity].
  destruct (listed_recommendation (lookup "recommendation" props)) eqn:El.
  2:{ cbn. destruct (truthy (lookup "recommendation" props)); reflexivity. }
  rewrite (listed_truthy _ El).
  destruct (is_number (lookup "confidence" props)); [|reflexivity].
  destruct (truthy (lookup "rationale" props)); [|reflexivity].
  cbn [negb andb].
  split_object (lookup "annotation" props) aprops.
  cbn [truthy negb get bind field].
  rewrite !orelse_Normal.
  destruct (truthy (lookup "type" aprops)); [|reflexivity].
  cbn [negb andb].
  split_object (lookup "start" aprops) sprops.
  cbn [truthy negb get bind field].
  rewrite !typeof_number, !orelse_Normal.
  destruct (is_number (lookup "x" sprops)); [|reflexivity].
  destruct (is_number (lookup "y" sprops)); [|reflexivity].
  cbn [negb andb].
  split_object (lookup "end" aprops) eprops.
  cbn [truthy negb get bind field].
  rewrite !typeof_number, !orelse_Normal.
  destruct (is_number (lookup "x" eprops)); [|reflexivity].
  destruct (is_number (lookup "y" eprops)); reflexivity.
Qed.

Lemma rejection_message (v : value) :
  v <> VNull -> v <> VUndefined ->
  message (rejection v) = invalid_structure_message.
Proof. destruct v; intros; try reflexivity; contradiction. Qed.

Lemma validate_rejects (v : value) :
  accepts v = false -> exists e, validate v = Throw (ErrorObject e).
Proof.
  intros Hv. rewrite validate_accepts, Hv. now exists (rejection v).
Qed.

Lemma validate_Normal_inv (v r : value) :
  validate v = Normal r -> r = v /\ accepts v = true.
Proof.
  rewrite validate_accepts. destruct (accepts v); [|discriminate].
  intros [= <-]. now split.
Qed.

Lemma nonempty_truthy (v : value) :
  nonempty_string v = true -> truthy v = true.
Proof. destruct v; simpl; congruence. Qed.

Lemma nonempty_accepts (v : value) :
  section_4_1_nonempty v = true -> accepts v = true.
Proof.
  unfold section_4_1_nonempty, accepts. rewrite !andb_true_iff.
  intros [[[[[[Hp Hr] Hl] Hc] Ht] Hs] He].
  now rewrite (nonempty_truthy _ Hp), (nonempty_truthy _ Hr), Hl, Hc, Ht, Hs, He.
Qed.

(** A required field that reads [undefined] makes [accepts] fail. *)
Lemma missing_not_accepted (v : value) :
  missing_required_field v -> accepts v = false.
Proof.
  intros [path [Hin Hp]]. unfold accepts, numeric_point, at_path in *.
  cbn [fold_left].
  cbn [In required_paths] in Hin.
  repeat (destruct Hin as [<- | Hin]; [cbn [fold_left] in Hp; rewrite Hp; cbn;
    rewrite ?andb_false_r, ?andb_false_l; reflexivity | ]).
  contradiction.
Qed.

Lemma unlisted_not_accepted (v : value) :
  listed_recommendation (field v "recommendation") = false ->
  accepts v = false.
Proof.
  intros H. unfold accepts. rewrite H.
  now rewrite andb_false_r.
Qed.

(** ** Claims about the structure check *)

(** C2, as worded, fails: the payload of the design document's scenario
    with its prediction emptied satisfies every rule of section 4.1 (the
    prediction is present and is a string), and the check throws the
    structure error on it. *)
Lemma C2_empty_prediction_is_rejected :
  section_4_1 empty_prediction = true /\
  validate empty_prediction = Throw (new_Error invalid_structure_message).
Proof. split; reflexivity. Qed.

(** C2, amended: a decoded value whose prediction and rationale are
    non-empty strings, whose recommendation is one of BUY, SELL, HOLD,
    whose confidence is a number and whose annotation has a truthy type
    and two points with numeric x and y is accepted, and what the check
    returns is the input value itself: every field, at any depth, is the
    input's. *)
Theorem C2_validate_returns_input (v : value) :
  section_4_1_nonempty v = true ->
  validate v = Normal v /\
  forall r, validate v = Normal r ->
    forall path, at_path r path = at_path v path.
Proof.
  intros Hv. apply nonempty_accepts in Hv.
  rewrite validate_accepts, Hv. split; [reflexivity|].
  now intros r [= <-].
Qed.

Lemma C2_validate_returns_input_witness :
  validate sideways_drift = Normal sideways_drift /\
  forall r, validate sideways_drift = Normal r ->
    forall path, at_path r path = at_path sideways_drift path.
Proof. apply (C2_validate_returns_input sideways_drift). reflexivity. Defined.

(** C3: a decoded value that lacks any of the required fields
    (prediction, recommendation, confidence, rationale, annotation, the
    annotation's type, start or end, or the x or y of a point), or whose
    recommendation is not exactly one of BUY, SELL, HOLD, is rejected:
    the check throws an error object and returns nothing. *)
Theorem C3_validate_rejects_incomplete (v : value) :
  missing_required_field v \/
  listed_recommendation (field v "recommendation") = false ->
  exists e, validate v = Throw (ErrorObject e).
Proof.
  intros [H | H]; apply validate_rejects.
  - now apply missing_not_accepted.
  - now apply unlisted_not_accepted.
Qed.

Lemma C3_validate_rejects_incomplete_witness :
  exists e, validate strong_buy = Throw (ErrorObject e).
Proof.
  apply (C3_validate_rejects_incomplete strong_buy). right. reflexivity.
Defined.

(** C10: the check tests prediction and rationale for truthiness, not
    for being strings. Some input with a numeric prediction is accepted,
    some input with a boolean rationale is accepted, and every input
    whose prediction or rationale is the empty string is rejected. *)
Theorem C10_truthiness_not_string_type :
  (exists v, is_string (field v "prediction") = false /\
             truthy (field v "prediction") = true /\
             validate v = Normal v) /\
  (exists v, is_string (field v "rationale") = false /\
             truthy (field v "rationale") = true /\
             validate v = Normal v) /\
  (forall v, field v "prediction" = VStr "" \/ field v "rationale" = VStr "" ->
             exists e, validate v = Throw (ErrorObject e)).
Proof.
  split; [|split].
  - exists numeric_prediction. repeat split; reflexivity.
  - exists numeric_rationale. repeat split; reflexivity.
  - intros v [H | H]; apply validate_rejects; unfold accepts; rewrite H; cbn;
      now rewrite ?andb_false_r.
Qed.

Lemma C10_truthiness_not_string_type_witness :
  exists e, validate empty_rationale = Throw (ErrorObject e).
Proof.
  apply (proj2 (proj2 C10_truthiness_not_string_type) empty_rationale).
  right. reflexivity.
Defined.

End ValidationFacts.

(* ===================================================================== *)
(** ** Facts about the two operations of the client *)
(* ===================================================================== *)

Module ClientFacts.

Import Types GeminiService Design ValidationFacts.

Section WithService.

Variable JSON_parse_result : string -> value + string.
Variable trim : string -> string.
Variable generateContent : Request -> completion GenerateContentResponse.
Variable prompt : string.
Variable generationPrompt : value -> string.

(** Whatever the [try] block throws, the [catch] clause throws a plain
    [Error]. *)
Lemma analyzeChart_catch_plain (t : thrown) :
  exists msg, analyzeChart_catch t = Throw (new_Error msg).
Proof. destruct t; eexists; reflexivity. Qed.

Lemma continueChart_catch_plain (t : thrown) :
  exists msg, continueChart_catch t = Throw (new_Error msg).
Proof. destruct t; eexists; reflexivity. Qed.

(** Once the service has answered a text that decodes to [v], the
    operation is the structure check on [v] under the [catch] clause. *)
Lemma analyzeChart_decoded (img mime : string)
  (resp : GenerateContentResponse) (s : string) (v : value) :
  generateContent (analyze_request prompt img mime) = Normal resp ->
  response_text resp = Some s ->
  JSON_parse_result (trim s) = inl v ->
  analyzeChart JSON_parse_result trim generateContent prompt img mime
    = try_catch (validate v) analyzeChart_catch.
Proof.
  intros Hc Ht Hp. unfold analyzeChart, analyzeChart_try.
  rewrite Hc. cbn [bind]. unfold text_trim. rewrite Ht. cbn [bind].
  unfold JSON_parse. now rewrite Hp.
Qed.

Lemma analyzeChart_try_validated (img mime : string) (v : value) :
  analyzeChart_try JSON_parse_result trim generateContent prompt img mime
    = Normal v ->
  validate v = Normal v.
Proof.
  unfold analyzeChart_try.
  destruct (generateContent _) as [resp|]; [cbn [bind]|discriminate].
  destruct (text_trim trim resp) as [js|]; [cbn [bind]|discriminate].
  destruct (JSON_parse JSON_parse_result js) as [r|]; [cbn [bind]|discriminate].
  intros H. destruct (validate_Normal_inv _ _ H) as [-> _]. exact H.
Qed.

(** The scan returns the data of the first part that has inline data. *)
Lemma first_inline_data_Some (ps : list Part) (d : string) :
  first_inline_data ps = Some d <->
  exists before part blob after,
    ps = (before ++ part :: after)%list /\
    Forall (fun p => inlineData p = None) before /\
    inlineData part = Some blob /\ d = data blob.
Proof.
  split.
  - induction ps as [|p ps IH]; [discriminate|]. cbn.
    destruct (inlineData p) as [blob|] eqn:Ep.
    + intros [= <-]. exists [], p, blob, ps. now repeat split.
    + intros H. destruct (IH H) as (before & part & blob & after & -> & Hb & Hp & ->).
      exists (p :: before), part, blob, after. repeat split; auto.
  - intros (before & part & blob & after & -> & Hb & Hp & ->).
    induction Hb as [|p before Hp0 _ IH]; cbn.
    + now rewrite Hp.
    + now rewrite Hp0.
Qed.


(** C6, amended: [analyzeChart] ends in one of two ways: it returns a
    value that passed the structure check, or it throws a plain [Error].
    An error object thrown by the service, a text that does not decode,
    and a decoded value the check refuses all become that one kind of
    error, its message the fixed prefix followed by the underlying
    message; something thrown that is not an error object becomes the
    same kind of error with the fixed "unknown error" message, which
    carries nothing of what was thrown. *)
Theorem C6_analyzeChart_single_failure_kind (img mime : string) :
  let outcome :=
    analyzeChart JSON_parse_result trim generateContent prompt img mime in
  let call := generateContent (analyze_request prompt img mime) in
  ((exists v, outcome = Normal v /\ validate v = Normal v) \/
   (exists msg, outcome = Throw (new_Error msg))) /\
  (forall e, call = Throw (ErrorObject e) ->
     outcome = Throw (new_Error (analysis_failed_prefix ++ message e))) /\
  (forall x, call = Throw (OtherThrown x) ->
     outcome = Throw (new_Error analysis_unknown_message)) /\
  (forall resp s msg,
     call = Normal resp -> response_text resp = Some s ->
     JSON_parse_result (trim s) = inr msg ->
     outcome = Throw (new_Error (analysis_failed_prefix ++ msg))) /\
  (forall resp s v,
     call = Normal resp -> response_text resp = Some s ->
     JSON_parse_result (trim s) = inl v ->
     accepts v = false ->
     outcome =
       Throw (new_Error (analysis_failed_prefix ++ message (rejection v))) /\
     (v <> VNull -> v <> VUndefined ->
      message (rejection v) = invalid_structure_message)) /\
  (forall resp s v,
     call = Normal resp -> response_text resp = Some s ->
     JSON_parse_result (trim s) = inl v ->
     accepts v = true ->
     outcome = Normal v).
Proof.
  cbv zeta. split; [|split; [|split; [|split; [|split]]]].
  - unfold analyzeChart.
    destruct (analyzeChart_try _ _ _ _ img mime) as [v|t] eqn:Et; cbn.
    + left. exists v. split; [reflexivity|].
      eapply analyzeChart_try_validated; eassumption.
    + right. apply analyzeChart_catch_plain.
  - intros e Hc. unfold analyzeChart, analyzeChart_try. now rewrite Hc.
  - intros w Hc. unfold analyzeChart, analyzeChart_try. now rewrite Hc.
  - intros resp s msg Hc Ht Hp. unfold analyzeChart, analyzeChart_try.
    rewrite Hc. cbn [bind]. unfold text_trim. rewrite Ht. cbn [bind].
    unfold JSON_parse. now rewrite Hp.
  - intros resp s v Hc Ht Hp Ha. split.
    + rewrite (analyzeChart_decoded _ _ _ _ _ Hc Ht Hp).
      now rewrite validate_accepts, Ha.
    + now apply rejection_message.
  - intros resp s v Hc Ht Hp Ha.
    rewrite (analyzeChart_decoded _ _ _ _ _ Hc Ht Hp).
    now rewrite validate_accepts, Ha.
Qed.

End WithService.

(** C6, as worded, fails: when the call to the service throws the string
    "boom" (a value that is not an error object), the error
    [analyzeChart] throws has the fixed "unknown error" message, in which
    the underlying text does not occur and which does not start with the
    "analysis failed" prefix. *)
Lemma C6_thrown_string_loses_its_text :
  analyzeChart (decodes_to sideways_drift) no_trim Scenes.throws_boom "p"
    "iVBORw0KGgo=" "image/png"
  = Throw (new_Error analysis_unknown_message) /\
  Scenes.occurs_in "boom" analysis_unknown_message = false /\
  String.prefix analysis_failed_prefix analysis_unknown_message = false.
Proof. repeat split. Qed.

Lemma C6_analyzeChart_single_failure_kind_witness :
  analyzeChart (decodes_to strong_buy) no_trim (answers_text "{}") "p"
    "iVBORw0KGgo=" "image/png"
  = Throw (new_Error
      (analysis_failed_prefix ++ message (rejection strong_buy))).
Proof.
  apply (proj1 (proj1 (proj2 (proj2 (proj2 (proj2
    (C6_analyzeChart_single_failure_kind (decodes_to strong_buy) no_trim
       (answers_text "{}") "p" "iVBORw0KGgo=" "image/png")))))
    (mkResponse (Some "{}") None) "{}" strong_buy
    eq_refl eq_refl eq_refl eq_refl)).
Defined.

End ClientFacts.

(* ===================================================================== *)
(** ** The wheel handler on doubles *)
(* ===================================================================== *)

Module DoublesFacts.

Import PrimFloat Doubles.
Local Open Scope float_scope.


End DoublesFacts.

(* ===================================================================== *)
(** ** Facts about the viewer *)
(* ===================================================================== *)

Module ViewerFacts.

Import GeminiService ChartModal Design.

Local Open Scope Q_scope.

Lemma MIN_le_MAX : MIN_SCALE <= MAX_SCALE.
Proof. unfold MIN_SCALE, MAX_SCALE. lra. Qed.

Lemma newScale_in_range (e : WheelEvent) (st : State) :
  MIN_SCALE <= newScale e st /\ newScale e st <= MAX_SCALE.
Proof.
  unfold newScale. split.
  - apply Q.le_max_l.
  - apply Q.max_lub; [apply MIN_le_MAX | apply Q.le_min_l].
Qed.

(** The handler either leaves the state alone or installs [newScale] and
    the offset computed from it. *)
Lemma handleWheel_cases (container : option DOMRect) (e : WheelEvent)
  (st : State) :
  handleWheel container e st = st \/
  (exists rect, container = Some rect /\
     ~ newScale e st == scale st /\
     scale (handleWheel container e st) = newScale e st /\
     position (handleWheel container e st) =
       mkPoint
         ((clientX e - left rect) -
          ((clientX e - left rect) - x (position st)) / scale st * newScale e st)
         ((clientY e - top rect) -
          ((clientY e - top rect) - y (position st)) / scale st * newScale e st)).
Proof.
  destruct container as [rect|]; [|now left]. cbn.
  destruct (Qeq_bool (newScale e st) (scale st)) eqn:E; [now left|].
  right. exists rect. repeat split.
  intros H. apply Qeq_eq_bool in H. congruence.
Qed.

Lemma handleWheel_in_range (container : option DOMRect) (e : WheelEvent)
  (st : State) :
  scale_in_range st -> scale_in_range (handleWheel container e st).
Proof.
  intros Hst.
  destruct (handleWheel_cases container e st) as [-> | (rect & _ & _ & Hs & _)];
    [assumption|].
  unfold scale_in_range. rewrite Hs. apply newScale_in_range.
Qed.

Lemma wheel_states_in_range (evs : list (option DOMRect * WheelEvent)) :
  forall st, scale_in_range st -> Forall scale_in_range (wheel_states st evs).
Proof.
  induction evs as [|[container e] evs IH]; intros st Hst; cbn.
  - constructor.
  - pose proof (handleWheel_in_range container e st Hst) as Hst'.
    constructor; [assumption | now apply IH].
Qed.

Lemma initial_in_range : scale_in_range initial.
Proof. unfold scale_in_range, MIN_SCALE, MAX_SCALE; cbn. lra. Qed.

(** Every event of the viewer keeps the scale within its bounds. *)
Lemma step_in_range (st : State) (ev : Event) :
  scale_in_range st -> scale_in_range (step st ev).
Proof.
  intros Hst.
  assert (H1 : scale_in_range (handleReset st))
    by (unfold scale_in_range, MIN_SCALE, MAX_SCALE; cbn; lra).
  destruct ev; cbn [step]; try assumption.
  - now apply handleWheel_in_range.
  - unfold handleMouseDown. now destruct (Qeq_bool _ _).
  - unfold handleMouseMove. now destruct (negb _).
  - unfold viewOriginal. now destruct (negb _).
  - unfold viewPredicted.
    destruct (viewingOriginal st), (continuedImageSrc st); assumption.
  - destruct outcome as [d|[err|w]]; assumption.
Qed.

Lemma run_in_range (evs : list Event) :
  forall st, scale_in_range st -> scale_in_range (run evs st).
Proof.
  induction evs as [|ev evs IH]; intros st Hst; cbn; [assumption|].
  apply IH. now apply step_in_range.
Qed.



(** C4: from the initial state (scale 1), after each event of any finite
    sequence of wheel events, whatever their deltas and pointer
    positions, the scale lies within [1, 8]. *)
Theorem C4_scale_stays_clamped (evs : list (option DOMRect * WheelEvent)) :
  Forall (fun st => 1 <= scale st /\ scale st <= 8) (wheel_states initial evs).
Proof.
  apply (wheel_states_in_range evs initial). apply initial_in_range.
Qed.

(** C8: on a wheel event delivered to the mounted container, the scale
    after the handler is clamp(scale * (1 + (-deltaY * 0.002)), 1, 8);
    and whenever that clamped value equals the current scale the handler
    returns the state it was given, scale and offset included. *)
Theorem C8_wheel_scale_and_noop (container : option DOMRect) (rect : DOMRect)
  (e : WheelEvent) (st : State) :
  let target := clamp (scale st * (1 + (- deltaY e * 0.002))) 1 8 in
  scale (handleWheel (Some rect) e st) == target /\
  (target == scale st -> handleWheel container e st = st).
Proof.
  cbv zeta. change (clamp _ 1 8) with (newScale e st). split.
  - cbn. destruct (Qeq_bool (newScale e st) (scale st)) eqn:E.
    + symmetry. now apply Qeq_bool_eq.
    + reflexivity.
  - intros H. destruct container as [r|]; [|reflexivity]. cbn.
    now rewrite (Qeq_eq_bool _ _ H).
Qed.

Lemma C8_wheel_scale_and_noop_witness :
  handleWheel (Some viewer_rect) (mkWheel press 100) initial = initial.
Proof.
  apply (proj2 (C8_wheel_scale_and_noop (Some viewer_rect) viewer_rect
                  (mkWheel press 100) initial)).
  vm_compute. reflexivity.
Defined.

(** C9: drag semantics, for a viewer whose scale is at least 1.
    Pointer-down at scale 1 changes nothing; pointer-down starts a drag
    only when the scale is above 1, and then records the pointer position
    minus the current offset as the anchor, leaving scale and offset as
    they were. A pointer-move while dragging sets the offset to the
    pointer position minus the anchor and leaves the scale, the anchor
    and the dragging flag alone. Pointer-up and pointer-leave clear the
    dragging flag and keep offset and scale. *)
Theorem C9_drag_semantics (st : State) (down move : MouseEvent) :
  MIN_SCALE <= scale st ->
  (scale st == 1 -> handleMouseDown down st = st) /\
  (isDragging st = false -> isDragging (handleMouseDown down st) = true ->
   1 < scale st) /\
  (1 < scale st ->
   let st1 := handleMouseDown down st in
   isDragging st1 = true /\
   dragStartPos st1 =
     mkPoint (clientX down - x (position st)) (clientY down - y (position st)) /\
   scale st1 = scale st /\ position st1 = position st /\
   position (handleMouseMove move st1) =
     mkPoint (clientX move - (clientX down - x (position st)))
             (clientY move - (clientY down - y (position st)))) /\
  (isDragging st = true ->
   let st2 := handleMouseMove move st in
   position st2 =
     mkPoint (clientX move - x (dragStartPos st))
             (clientY move - y (dragStartPos st)) /\
   scale st2 = scale st /\ dragStartPos st2 = dragStartPos st /\
   isDragging st2 = true) /\
  (forall ev, ev = MouseUp \/ ev = MouseLeave ->
   isDragging (step st ev) = false /\
   position (step st ev) = position st /\ scale (step st ev) = scale st).
Proof.
  unfold MIN_SCALE. intros Hlo. split; [|split; [|split; [|split]]].
  - intros H. unfold handleMouseDown. now rewrite (Qeq_eq_bool _ _ H).
  - intros Hd. unfold handleMouseDown.
    destruct (Qeq_bool (scale st) 1) eqn:E; [congruence|].
    intros _. apply Qle_lteq in Hlo. destruct Hlo as [Hlt | Heq]; [assumption|].
    symmetry in Heq. apply Qeq_eq_bool in Heq. congruence.
  - intros Hgt. unfold handleMouseDown.
    destruct (Qeq_bool (scale st) 1) eqn:E.
    + apply Qeq_bool_eq in E. rewrite E in Hgt. now apply Qlt_irrefl in Hgt.
    + cbn. repeat split.
  - intros Hd. unfold handleMouseMove. rewrite Hd. cbn. now repeat split.
  - intros ev [-> | ->]; cbn; now repeat split.
Qed.

Lemma C9_drag_semantics_witness :
  let st := handleWheel (Some viewer_rect) zoom_in initial in
  position (handleMouseMove (mkMouse 350 260) (handleMouseDown press st)) =
    mkPoint (350 - (300 - x (position st))) (260 - (200 - y (position st))).
Proof.
  pose proof (C9_drag_semantics (handleWheel (Some viewer_rect) zoom_in initial)
                press (mkMouse 350 260)) as H.
  cbv zeta.
  refine (proj2 (proj2 (proj2 (proj2
    (proj1 (proj2 (proj2 (H _))) _))))).
  - vm_compute. discriminate.
  - vm_compute. reflexivity.
Defined.

(** C5: the code breaks the claim. In the state reached by one notch of
    zoom in and a press (a drag in progress at scale 1.2), the reset,
    which is what runs when a continuation settles, yields scale 1 and
    offset (0, 0) but leaves the dragging flag set, so the postcondition
    of the claim fails; and the next pointer-move then pans the image at
    scale 1, under the default cursor, which the guard of the press
    handler and the cursor class otherwise rule out. *)
Theorem C5_reset_during_drag_leaves_dragging_on :
  let st := handleReset dragging_state in
  let moved := handleMouseMove (mkMouse 350 260) st in
  dragging_state =
    run [Wheel (Some viewer_rect) zoom_in; MouseDown press] initial /\
  isDragging dragging_state = true /\
  scale st = 1 /\ position st = mkPoint 0 0 /\
  isDragging st = true /\
  ~ reset_postcondition st /\
  st = run [Wheel (Some viewer_rect) zoom_in; MouseDown press; ResetClick]
         initial /\
  scale moved = 1 /\ isDragging moved = true /\
  position moved <> mkPoint 0 0 /\
  cursorClass moved = "cursor-default"%string /\
  handleMouseDown press (handleReset initial) = handleReset initial.
Proof.
  cbv zeta. repeat split.
  - intros (_ & _ & H). discriminate H.
  - vm_compute. discriminate.
Qed.

End ViewerFacts.

(* ===================================================================== *)
(** ** Facts about the continuation, from the service to the screen *)
(* ===================================================================== *)

Module ContinuationFacts.

Import GeminiService ChartModal Design ClientFacts.

(** A failed continuation touches the error text and the busy flag and
    nothing else: the image on display is the one that was there. *)
Lemma generation_settle_failure (props : ChartModalProps) (t : thrown)
  (st : State) :
  let st' := generation_settle (Throw t) st in
  displayImageSrc props st' = displayImageSrc props st /\
  continuedImageSrc st' = continuedImageSrc st /\
  viewingOriginal st' = viewingOriginal st /\
  scale st' = scale st /\ position st' = position st /\
  isGenerating st' = false /\
  generationError st' <> None.
Proof. destruct t; cbn; repeat split; discriminate. Qed.

Section WithService.

Variable generateContent : Request -> completion GenerateContentResponse.
Variable generationPrompt : value -> string.

Lemma continueChart_parts (img mime : string) (analysis : value)
  (resp : GenerateContentResponse) (ps : list Part) :
  generateContent (continuation_request generationPrompt img mime analysis)
    = Normal resp ->
  first_candidate_parts resp = Normal ps ->
  continueChart generateContent generationPrompt img mime analysis =
    match first_inline_data ps with
    | Some d => Normal d
    | None =>
        Throw (new_Error (continuation_failed_prefix ++ no_image_message))
    end.
Proof.
  intros Hc Hp. unfold continueChart, continueChart_try.
  rewrite Hc. cbn [bind]. rewrite Hp. cbn [bind].
  now destruct (first_inline_data ps).
Qed.




End WithService.



End ContinuationFacts.

(* ===================================================================== *)
(** ** More about the structure check and what is drawn from a result *)
(* ===================================================================== *)

Module ValidationMore.

Import Types GeminiService Design Scenes ValidationFacts.

(** X1: the check is all-or-nothing and exact. It returns a value only
    when that value is its argument and the argument has a truthy
    prediction and rationale, a listed recommendation, a numeric
    confidence, a truthy annotation type and numeric coordinates; in any
    other case it throws. *)
Theorem validate_exact (v r : value) :
  validate v = Normal r <-> r = v /\ accepts v = true.
Proof.
  split.
  - apply validate_Normal_inv.
  - intros [-> Ha]. now rewrite validate_accepts, Ha.
Qed.

(** X2: a decoded value that is not an object (a number, a string, a
    boolean, an array, null) is always rejected; for null the error is
    the engine's [TypeError], for the others the structure error. *)
Theorem validate_rejects_non_objects (v : value) :
  is_object v = false ->
  exists e, validate v = Throw (ErrorObject e) /\
    (v = VNull \/ v = VUndefined -> name e = "TypeError") /\
    (v <> VNull -> v <> VUndefined ->
     e = mkError "Error" invalid_structure_message).
Proof.
  intros Hv. exists (rejection v). rewrite validate_accepts.
  destruct v; try discriminate Hv; cbn;
    (split; [reflexivity|]); split; try reflexivity;
    intros; try reflexivity; try contradiction;
    match goal with H : _ \/ _ |- _ => destruct H; discriminate end.
Qed.

Lemma validate_rejects_non_objects_witness :
  exists e, validate (VArr [sideways_drift]) = Throw (ErrorObject e) /\
    (VArr [sideways_drift] = VNull \/ VArr [sideways_drift] = VUndefined ->
     name e = "TypeError") /\
    (VArr [sideways_drift] <> VNull -> VArr [sideways_drift] <> VUndefined ->
     e = mkError "Error" invalid_structure_message).
Proof.
  apply (validate_rejects_non_objects (VArr [sideways_drift])). reflexivity.
Defined.

(** X3: the check is permissive about ranges and about the annotation's
    type: with a truthy prediction, rationale and type and a listed
    recommendation, every numeric confidence and every numeric
    coordinate passes, whatever their values. *)
Theorem validate_checks_no_ranges (prediction recommendation rationale
  type : value) (confidence sx sy ex ey : Q) :
  truthy prediction = true -> truthy rationale = true ->
  truthy type = true -> listed_recommendation recommendation = true ->
  let v := full_payload prediction recommendation (VNum confidence)
             rationale type sx sy ex ey in
  validate v = Normal v.
Proof.
  intros Hp Hr Ht Hl. cbv zeta. rewrite validate_accepts.
  unfold accepts, full_payload, at_path, numeric_point, point. cbn.
  now rewrite Hp, Hl, Hr, Ht.
Qed.

Lemma validate_checks_no_ranges_witness :
  let v := full_payload (VStr "up") (VStr "BUY") (VNum (-250)) (VStr "...")
             (VStr "circle") (-10) 400 1000 (-3) in
  validate v = Normal v.
Proof.
  apply (validate_checks_no_ranges (VStr "up") (VStr "BUY") (VStr "...")
           (VStr "circle") (-250) (-10) 400 1000 (-3)); reflexivity.
Defined.

Lemma lookup_app (k : string) (props more : list (string * value)) :
  lookup k props <> VUndefined ->
  lookup k (props ++ more) = lookup k props.
Proof.
  induction props as [|[k' w] props IH]; cbn; [congruence|].
  destruct (String.eqb k k'); auto.
Qed.

Lemma truthy_defined (v : value) : truthy v = true -> v <> VUndefined.
Proof. intros H ->. discriminate. Qed.

(** X4: properties the check does not read are neither refused nor
    stripped: an accepted object with further properties appended is
    accepted too, and is returned with them. *)
Theorem validate_keeps_unknown_properties (props more : list (string * value)) :
  validate (VObj props) = Normal (VObj props) ->
  validate (VObj (props ++ more)) = Normal (VObj (props ++ more)).
Proof.
  intros H. apply validate_exact in H. destruct H as [_ Ha].
  apply validate_exact. split; [reflexivity|].
  unfold accepts, at_path, numeric_point in *. cbn [fold_left field] in *.
  pose proof Ha as Hb. rewrite !andb_true_iff in Hb.
  destruct Hb as [[[[[[Hp Hl] Hc] Hr] Ht] _] _].
  rewrite !lookup_app.
  - exact Ha.
  - intros E. rewrite E in Ht. discriminate.
  - intros E. rewrite E in Hr. discriminate.
  - intros E. rewrite E in Hc. discriminate.
  - intros E. rewrite E in Hl. discriminate.
  - intros E. rewrite E in Hp. discriminate.
Qed.

Lemma validate_keeps_unknown_properties_witness :
  validate (VObj ([("prediction", VStr "up"); ("recommendation", VStr "BUY");
                   ("confidence", VNum 90); ("rationale", VStr "...");
                   ("annotation",
                     VObj [("type", VStr "arrow"); ("start", point 1 2);
                           ("end", point 3 4)])]
                  ++ [("disclaimer", VStr "not advice")]))
  = Normal (VObj ([("prediction", VStr "up"); ("recommendation", VStr "BUY");
                   ("confidence", VNum 90); ("rationale", VStr "...");
                   ("annotation",
                     VObj [("type", VStr "arrow"); ("start", point 1 2);
                           ("end", point 3 4)])]
                  ++ [("disclaimer", VStr "not advice")])).
Proof.
  apply (validate_keeps_unknown_properties
           [("prediction", VStr "up"); ("recommendation", VStr "BUY");
            ("confidence", VNum 90); ("rationale", VStr "...");
            ("annotation",
              VObj [("type", VStr "arrow"); ("start", point 1 2);
                    ("end", point 3 4)])]
           [("disclaimer", VStr "not advice")]).
  reflexivity.
Defined.

(** X5: what is drawn from a validated result never falls to the
    defaults of the two [switch]es: the overlay colour is the green, red
    or yellow of BUY, SELL, HOLD, never the white fallback, and the
    recommendation badge never takes the slate fallback classes. *)
Theorem validated_result_has_a_colour (v : value) :
  validate v = Normal v ->
  In (ChartModal.getAnnotationColor (field v "recommendation"))
     ["#22c55e"; "#ef4444"; "#eab308"] /\
  AnalysisDisplay.getRecommendationClasses (field v "recommendation")
    <> AnalysisDisplay.fallback_classes.
Proof.
  intros H. apply validate_exact in H. destruct H as [_ Ha].
  unfold accepts in Ha. rewrite !andb_true_iff in Ha.
  destruct Ha as [[[[[[_ Hl] _] _] _] _] _].
  destruct (field v "recommendation") as [ | | | | s | | ];
    try discriminate Hl.
  cbn in *.
  destruct (String.eqb s "BUY"); [split; [cbn; auto | discriminate]|].
  destruct (String.eqb s "SELL"); [split; [cbn; auto | discriminate]|].
  destruct (String.eqb s "HOLD"); [split; [cbn; auto | discriminate]|].
  discriminate.
Qed.

Lemma validated_result_has_a_colour_witness :
  In (ChartModal.getAnnotationColor (field sideways_drift "recommendation"))
     ["#22c55e"; "#ef4444"; "#eab308"] /\
  AnalysisDisplay.getRecommendationClasses
    (field sideways_drift "recommendation")
    <> AnalysisDisplay.fallback_classes.
Proof.
  apply (validated_result_has_a_colour sideways_drift). reflexivity.
Defined.

End ValidationMore.

(* ===================================================================== *)
(** ** More about the two operations of the client *)
(* ===================================================================== *)

Module ClientMore.

Import Types GeminiService Design Scenes ValidationFacts ClientFacts.

Section WithService.

Variable JSON_parse_result : string -> value + string.
Variable trim : string -> string.
Variable generateContent : Request -> completion GenerateContentResponse.
Variable prompt : string.
Variable generationPrompt : value -> string.

(** X6: [continueChart] has one failure kind too. It returns a string or
    throws a plain [Error]; an error object thrown by the service comes
    out under the operation's prefix, anything else thrown comes out as
    the fixed "unknown error"; and a response with no candidates, an
    empty candidate list, a candidate without content or a content
    without parts fails under the prefix with a [TypeError]'s message,
    not with the "no image" message. *)
Theorem continueChart_failures (img mime : string) (analysis : value) :
  let outcome :=
    continueChart generateContent generationPrompt img mime analysis in
  let call :=
    generateContent (continuation_request generationPrompt img mime analysis) in
  ((exists d, outcome = Normal d) \/
   (exists msg, outcome = Throw (new_Error msg))) /\
  (forall e, call = Throw (ErrorObject e) ->
     outcome = Throw (new_Error (continuation_failed_prefix ++ message e))) /\
  (forall w, call = Throw (OtherThrown w) ->
     outcome = Throw (new_Error continuation_unknown_message)) /\
  (forall resp e, call = Normal resp ->
     first_candidate_parts resp = Throw (ErrorObject e) ->
     name e = "TypeError" /\
     outcome = Throw (new_Error (continuation_failed_prefix ++ message e)) /\
     continuation_failed_prefix ++ message e
       <> continuation_failed_prefix ++ no_image_message).
Proof.
  cbv zeta. split; [|split; [|split]].
  - unfold continueChart.
    destruct (continueChart_try _ _ img mime analysis) as [d|t]; cbn.
    + left. now exists d.
    + right. apply continueChart_catch_plain.
  - intros e Hc. unfold continueChart, continueChart_try. now rewrite Hc.
  - intros w Hc. unfold continueChart, continueChart_try. now rewrite Hc.
  - intros resp e Hc Hp. unfold continueChart, continueChart_try.
    rewrite Hc. cbn [bind]. rewrite Hp. cbn.
    unfold first_candidate_parts in Hp.
    destruct (candidates resp) as [[|c cs]|];
      [ | destruct (content c) as [ct|]; [destruct (parts ct)|] | ];
      try discriminate Hp; injection Hp as <-;
      (split; [reflexivity | split; [reflexivity | discriminate]]).
Qed.

(** X7: a response without a text payload makes [analyzeChart] fail
    before anything is decoded: the outcome is the prefixed [TypeError]
    of the read of [trim], whatever [JSON.parse] and [trim] would do. *)
Theorem analyzeChart_without_text (img mime : string)
  (resp : GenerateContentResponse) :
  generateContent (analyze_request prompt img mime) = Normal resp ->
  response_text resp = None ->
  analyzeChart JSON_parse_result trim generateContent prompt img mime =
    Throw (new_Error
      (analysis_failed_prefix ++
       "Cannot read properties of undefined (reading 'trim')")).
Proof.
  intros Hc Ht. unfold analyzeChart, analyzeChart_try.
  rewrite Hc. cbn [bind]. unfold text_trim. now rewrite Ht.
Qed.

End WithService.

Lemma continueChart_failures_witness :
  continueChart (fun _ => Normal (mkResponse None (Some []))) prompt_of
    "iVBORw0KGgo=" "image/png" sideways_drift
  = Throw (new_Error
      (continuation_failed_prefix ++
       "Cannot read properties of undefined (reading 'content')")).
Proof.
  pose proof (continueChart_failures
    (fun _ => Normal (mkResponse None (Some []))) prompt_of
    "iVBORw0KGgo=" "image/png" sideways_drift) as H.
  cbv zeta in H. destruct H as (_ & _ & _ & H).
  exact (proj1 (proj2 (H (mkResponse None (Some []))
    (mkError "TypeError"
       "Cannot read properties of undefined (reading 'content')")
    eq_refl eq_refl))).
Defined.

Lemma analyzeChart_without_text_witness :
  analyzeChart (decodes_to sideways_drift) no_trim (answers_parts []) "p"
    "iVBORw0KGgo=" "image/png" =
  Throw (new_Error
    (analysis_failed_prefix ++
     "Cannot read properties of undefined (reading 'trim')")).
Proof.
  apply (analyzeChart_without_text (decodes_to sideways_drift) no_trim
           (answers_parts []) "p" "iVBORw0KGgo=" "image/png"
           (mkResponse None
              (Some [mkCandidate (Some (mkContent (Some [])))])));
    reflexivity.
Defined.

End ClientMore.

(* ===================================================================== *)
(** ** More about the viewer: zooming *)
(* ===================================================================== *)

Module ZoomFacts.

Import GeminiService ChartModal Design Scenes ViewerFacts.

Local Open Scope Q_scope.

(** X8: whatever the viewer goes through (wheel, pointer, reset, image
    switch, a continuation that settles, closing), in any order, its
    scale stays within [1, 8]. *)
Theorem viewer_scale_invariant (evs : list Event) :
  1 <= scale (run evs initial) /\ scale (run evs initial) <= 8.
Proof. apply (run_in_range evs initial). apply initial_in_range. Qed.

(** The value the handler clamps, and how the clamp sits against it. *)
Lemma newScale_spec (e : WheelEvent) (st : State) :
  let raw := scale st * (1 + - deltaY e * ZOOM_SENSITIVITY) in
  (raw <= 1 /\ newScale e st == 1) \/
  (1 <= raw /\ raw <= 8 /\ newScale e st == raw) \/
  (8 <= raw /\ newScale e st == 8).
Proof.
  cbv zeta. unfold newScale, MIN_SCALE, MAX_SCALE.
  set (raw := scale st * _).
  destruct (Q.min_spec 8 raw) as [[H1 E1] | [H1 E1]];
    destruct (Q.max_spec 1 (Qmin 8 raw)) as [[H2 E2] | [H2 E2]];
    rewrite E2; rewrite E1 in *.
  - right. right. split; lra.
  - lra.
  - right. left. repeat split; lra.
  - left. split; lra.
Qed.

Lemma raw_scale_direction (e : WheelEvent) (st : State) :
  0 < scale st ->
  let raw := scale st * (1 + - deltaY e * ZOOM_SENSITIVITY) in
  (deltaY e <= 0 -> scale st <= raw) /\
  (0 <= deltaY e -> raw <= scale st) /\
  (deltaY e < 0 -> scale st < raw) /\
  (0 < deltaY e -> raw < scale st).
Proof.
  intros Hs. cbv zeta. unfold ZOOM_SENSITIVITY.
  repeat split; intros Hd; nra.
Qed.

Lemma handleWheel_noop (container : option DOMRect) (e : WheelEvent)
  (st : State) :
  newScale e st == scale st -> handleWheel container e st = st.
Proof.
  intros H. destruct container as [rect|]; [|reflexivity]. cbn.
  now rewrite (Qeq_eq_bool _ _ H).
Qed.

Lemma handleWheel_scale (rect : DOMRect) (e : WheelEvent) (st : State) :
  scale (handleWheel (Some rect) e st) == newScale e st.
Proof.
  cbn. destruct (Qeq_bool (newScale e st) (scale st)) eqn:E.
  - symmetry. now apply Qeq_bool_eq.
  - reflexivity.
Qed.

(** X9: at the limits the wheel does nothing at all. Scrolling to zoom
    in at scale 8, or to zoom out at scale 1, returns the state as it
    was: the offset does not drift. *)
Theorem wheel_at_limit_is_noop (container : option DOMRect) (e : WheelEvent)
  (st : State) :
  (scale st == MAX_SCALE -> deltaY e <= 0 -> handleWheel container e st = st) /\
  (scale st == MIN_SCALE -> 0 <= deltaY e -> handleWheel container e st = st).
Proof.
  unfold MAX_SCALE, MIN_SCALE.
  split; intros Hs Hd; apply handleWheel_noop;
    assert (Hpos : 0 < scale st) by lra;
    destruct (raw_scale_direction e st Hpos) as (Hup & Hdown & _);
    destruct (newScale_spec e st) as [[Hr E] | [(Hr1 & Hr2 & E) | [Hr E]]];
    cbv zeta in *; lra.
Qed.

Lemma wheel_at_limit_is_noop_witness :
  handleWheel (Some viewer_rect) (mkWheel press 250) initial = initial.
Proof.
  apply (proj2 (wheel_at_limit_is_noop (Some viewer_rect)
                  (mkWheel press 250) initial)).
  - reflexivity.
  - vm_compute. discriminate.
Defined.

(** X10: the wheel never zooms against the way it is turned. With the
    scale within [1, 8], a wheel event with deltaY <= 0 leaves the scale
    where it was or raises it, and one with deltaY >= 0 leaves it where
    it was or lowers it. *)
Theorem wheel_direction (rect : DOMRect) (e : WheelEvent) (st : State) :
  scale_in_range st ->
  let st' := handleWheel (Some rect) e st in
  (deltaY e <= 0 -> scale st <= scale st') /\
  (0 <= deltaY e -> scale st' <= scale st).
Proof.
  unfold scale_in_range, MIN_SCALE, MAX_SCALE. intros [Hlo Hhi]. cbv zeta.
  rewrite (handleWheel_scale rect e st).
  assert (Hpos : 0 < scale st) by lra.
  destruct (raw_scale_direction e st Hpos) as (Hup & Hdown & _).
  cbv zeta in *.
  destruct (newScale_spec e st) as [[Hr E] | [(Hr1 & Hr2 & E) | [Hr E]]];
    cbv zeta in *; rewrite E; split; intros Hd;
    try specialize (Hup Hd); try specialize (Hdown Hd); lra.
Qed.

Lemma wheel_direction_witness :
  scale initial <= scale (handleWheel (Some viewer_rect) zoom_in initial).
Proof.
  refine (proj1 (wheel_direction viewer_rect zoom_in initial
                   initial_in_range) _).
  vm_compute. discriminate.
Defined.

End ZoomFacts.

(* ===================================================================== *)
(** ** More about the viewer: dragging and what is on display *)
(* ===================================================================== *)

Module DragFacts.

Import GeminiService ChartModal Design Scenes ViewerFacts.

Local Open Scope Q_scope.

Lemma setIsDragging_same (st : State) :
  setIsDragging (isDragging st) st = st.
Proof. now destruct st. Qed.

Lemma last_cons_default {A : Type} (l : list A) :
  forall (a d : A), last (a :: l) d = last l a.
Proof.
  induction l as [|b l IH]; intros a d; [reflexivity|].
  change (last (a :: b :: l) d) with (last (b :: l) d).
  now rewrite !IH.
Qed.

(** Moves during a drag: the flag, the anchor and the scale stay, and the
    offset is the last pointer position minus the anchor. *)
Lemma moves_while_dragging (moves : list MouseEvent) :
  forall (st : State) (d : MouseEvent),
  isDragging st = true ->
  let st' := fold_left (fun s m => handleMouseMove m s) moves st in
  isDragging st' = true /\ dragStartPos st' = dragStartPos st /\
  scale st' = scale st /\
  position st' =
    match moves with
    | [] => position st
    | _ :: _ =>
        mkPoint (clientX (last moves d) - x (dragStartPos st))
                (clientY (last moves d) - y (dragStartPos st))
    end.
Proof.
  induction moves as [|m moves IH]; intros st d Hd.
  - cbn. now repeat split.
  - cbv zeta.
    change (fold_left (fun s m0 => handleMouseMove m0 s) (m :: moves) st)
      with (fold_left (fun s m0 => handleMouseMove m0 s) moves
              (handleMouseMove m st)).
    assert (Hm : handleMouseMove m st =
                 setPosition (mkPoint (clientX m - x (dragStartPos st))
                                      (clientY m - y (dragStartPos st))) st)
      by (unfold handleMouseMove; now rewrite Hd).
    rewrite Hm.
    destruct (IH (setPosition (mkPoint (clientX m - x (dragStartPos st))
                                       (clientY m - y (dragStartPos st))) st)
                 m Hd) as (H1 & H2 & H3 & H4).
    cbn [dragStartPos setPosition scale position] in *.
    rewrite (last_cons_default moves m d).
    repeat split; try assumption.
    rewrite H4. now destruct moves.
Qed.

(** X14: only the press and the last move of a drag count. Above scale
    1, pressing at one place, moving through any positions and releasing
    leaves the scale as it was and ends the drag; with no move the offset
    is untouched, and otherwise the offset is the last position minus the
    anchor of the press, last - (press - offset), as the handlers compute
    it: the positions in between leave no trace. *)
Theorem drag_translates_offset (down : MouseEvent) (moves : list MouseEvent)
  (st : State) :
  1 < scale st ->
  let st' := drag_run down moves st in
  scale st' = scale st /\ isDragging st' = false /\
  dragStartPos st' =
    mkPoint (clientX down - x (position st)) (clientY down - y (position st)) /\
  position st' =
    match moves with
    | [] => position st
    | _ :: _ =>
        mkPoint
          (clientX (last moves down) - (clientX down - x (position st)))
          (clientY (last moves down) - (clientY down - y (position st)))
    end.
Proof.
  intros Hs. cbv zeta. unfold drag_run.
  assert (Hdown : handleMouseDown down st =
            set_dragStartPos
              (mkPoint (clientX down - x (position st))
                       (clientY down - y (position st)))
              (setIsDragging true st)).
  { unfold handleMouseDown.
    destruct (Qeq_bool (scale st) 1) eqn:E; [|reflexivity].
    apply Qeq_bool_eq in E. rewrite E in Hs. now apply Qlt_irrefl in Hs. }
  rewrite Hdown.
  destruct (moves_while_dragging moves
              (set_dragStartPos
                 (mkPoint (clientX down - x (position st))
                          (clientY down - y (position st)))
                 (setIsDragging true st))
              down eq_refl) as (H1 & H2 & H3 & H4).
  cbn [handleMouseUp setIsDragging scale position isDragging dragStartPos].
  cbn [dragStartPos set_dragStartPos setIsDragging x y scale position]
    in H2, H3, H4.
  repeat split; assumption.
Qed.

Lemma drag_translates_offset_witness :
  let st := handleWheel (Some viewer_rect) zoom_in initial in
  position (drag_run press [mkMouse 310 190; mkMouse 350 260] st) =
    mkPoint (350 - (300 - x (position st))) (260 - (200 - y (position st))).
Proof.
  refine (proj2 (proj2 (proj2
    (drag_translates_offset press [mkMouse 310 190; mkMouse 350 260]
       (handleWheel (Some viewer_rect) zoom_in initial) _)))).
  vm_compute. reflexivity.
Defined.

Lemma mouse_step_at_rest (st : State) (ev : Event) :
  scale st == 1 -> isDragging st = false -> is_mouse_event ev = true ->
  step st ev = st.
Proof.
  intros Hs Hd Hev. destruct ev; try discriminate Hev; cbn [step].
  - unfold handleMouseDown. now rewrite (Qeq_eq_bool _ _ Hs).
  - unfold handleMouseUp. rewrite <- Hd. apply setIsDragging_same.
  - unfold handleMouseUp. rewrite <- Hd. apply setIsDragging_same.
  - unfold handleMouseMove. now rewrite Hd.
Qed.

(** X15: at rest nothing can be dragged. From a state at scale 1 with no
    drag in progress, any sequence of presses, moves, releases and
    leaves returns the very same state. *)
Theorem mouse_events_at_rest (evs : list Event) (st : State) :
  scale st == 1 -> isDragging st = false ->
  forallb is_mouse_event evs = true ->
  run evs st = st.
Proof.
  intros Hs Hd. induction evs as [|ev evs IH]; intros Hevs; [reflexivity|].
  cbn [forallb] in Hevs. apply andb_true_iff in Hevs. destruct Hevs as [Hev Hevs].
  change (run (ev :: evs) st) with (run evs (step st ev)).
  rewrite (mouse_step_at_rest st ev Hs Hd Hev). now apply IH.
Qed.

Lemma mouse_events_at_rest_witness :
  run [MouseDown press; MouseMove (mkMouse 350 260); MouseUp; MouseLeave]
      initial = initial.
Proof.
  apply (mouse_events_at_rest
           [MouseDown press; MouseMove (mkMouse 350 260); MouseUp; MouseLeave]
           initial); reflexivity.
Defined.

(** X16: the cursor tells what a press will do. With the scale at least
    1, the cursor class is the default one exactly when the scale is 1,
    and then a press changes nothing; otherwise a press starts a drag and
    the cursor becomes the grabbing one. *)
Theorem cursor_matches_press (e : MouseEvent) (st : State) :
  MIN_SCALE <= scale st ->
  (cursorClass st = "cursor-default"%string <-> scale st == 1) /\
  (cursorClass st = "cursor-default"%string -> handleMouseDown e st = st) /\
  (cursorClass st <> "cursor-default"%string ->
   isDragging (handleMouseDown e st) = true /\
   cursorClass (handleMouseDown e st) = "cursor-grabbing"%string).
Proof.
  unfold MIN_SCALE. intros Hlo.
  assert (Hle : Qle_bool (scale st) 1 = Qeq_bool (scale st) 1).
  { destruct (Qeq_bool (scale st) 1) eqn:E.
    - apply Qeq_bool_eq in E. apply Qle_bool_iff. rewrite E. apply Qle_refl.
    - destruct (Qle_bool (scale st) 1) eqn:L; [|reflexivity].
      apply Qle_bool_iff in L.
      assert (H1 : scale st == 1) by lra.
      apply Qeq_eq_bool in H1. congruence. }
  unfold cursorClass, handleMouseDown. rewrite Hle.
  destruct (Qeq_bool (scale st) 1) eqn:E.
  - apply Qeq_bool_eq in E. cbn [negb]. repeat split; auto. congruence.
  - cbn [negb scale isDragging set_dragStartPos setIsDragging].
    rewrite Hle. cbn [negb]. repeat split; try discriminate.
    + destruct (isDragging st); discriminate.
    + intros H1. apply Qeq_eq_bool in H1. congruence.
    + destruct (isDragging st); discriminate.
Qed.

Lemma cursor_matches_press_witness :
  cursorClass (handleMouseDown press
                 (handleWheel (Some viewer_rect) zoom_in initial))
  = "cursor-grabbing"%string.
Proof.
  refine (proj2 (proj2 (proj2
    (cursor_matches_press press
       (handleWheel (Some viewer_rect) zoom_in initial) _)) _)).
  - vm_compute. discriminate.
  - vm_compute. discriminate.
Defined.

(** X17: the image on display never changes under a zoomed or panned
    view. For every event of the viewer, if the image shown after the
    event is not the one shown before, the viewport after it is the
    reset one: scale 1 and offset (0, 0). *)
Theorem display_change_resets_viewport (props : ChartModalProps)
  (st : State) (ev : Event) :
  displayImageSrc props (step st ev) <> displayImageSrc props st ->
  scale (step st ev) = 1 /\ position (step st ev) = mkPoint 0 0.
Proof.
  destruct ev; cbn [step]; intros H.
  - exfalso. apply H.
    destruct (handleWheel_cases container e st) as [-> | (r & -> & _ & _ & _)];
      [reflexivity|].
    cbn. now destruct (Qeq_bool _ _).
  - exfalso. apply H. unfold handleMouseDown. now destruct (Qeq_bool _ _).
  - now exfalso.
  - now exfalso.
  - exfalso. apply H. unfold handleMouseMove. now destruct (negb _).
  - now split.
  - unfold viewOriginal in *. destruct (negb (viewingOriginal st));
      [now split | now exfalso].
  - unfold viewPredicted in *.
    destruct (viewingOriginal st), (continuedImageSrc st);
      try (now exfalso); now split.
  - destruct outcome as [d | [err | w]]; try (now exfalso). now split.
  - now split.
Qed.

Lemma display_change_resets_viewport_witness :
  scale (step dragging_state (GenerationSettled (Normal "iVBORw0KGgo="%string)))
    = 1 /\
  position (step dragging_state (GenerationSettled (Normal "iVBORw0KGgo="%string)))
    = mkPoint 0 0.
Proof.
  apply (display_change_resets_viewport chart_props dragging_state
           (GenerationSettled (Normal "iVBORw0KGgo="%string))).
  vm_compute. discriminate.
Defined.

(** X18: after a continuation has arrived the two views toggle. The
    generated image is on display under a reset viewport, the overlay is
    hidden and the generate button is gone; "original" brings back the
    uploaded image and the overlay, "predicted" brings the generated
    image back, each with the viewport reset, and choosing the view that
    is already on changes nothing. *)
Theorem continuation_views_toggle (props : ChartModalProps) (d : string)
  (annotation : value) (st : State) :
  truthy annotation = true ->
  let url := ("data:image/png;base64," ++ d)%string in
  let predicted := generation_settle (Normal d) st in
  let original := viewOriginal predicted in
  displayImageSrc props predicted = url /\
  overlay_shown annotation predicted = false /\
  generate_button_enabled predicted = false /\
  scale predicted = 1 /\ position predicted = mkPoint 0 0 /\
  viewPredicted predicted = predicted /\
  displayImageSrc props original = imageSrc props /\
  overlay_shown annotation original = true /\
  viewOriginal original = original /\
  displayImageSrc props (viewPredicted original) = url /\
  scale (viewPredicted original) = 1 /\
  position (viewPredicted original) = mkPoint 0 0.
Proof.
  intros Ha. cbv zeta. unfold overlay_shown. rewrite Ha.
  repeat split.
Qed.

Lemma continuation_views_toggle_witness :
  displayImageSrc chart_props
    (viewPredicted (viewOriginal
       (generation_settle (Normal "iVBORw0KGgo="%string) dragging_state)))
  = "data:image/png;base64,iVBORw0KGgo="%string.
Proof.
  pose proof (continuation_views_toggle chart_props "iVBORw0KGgo="%string
                (VObj []) dragging_state eq_refl) as H.
  cbv zeta in H.
  exact (proj1 (proj2 (proj2 (proj2 (proj2 (proj2 (proj2 (proj2 (proj2
    (proj2 H)))))))))).
Defined.

End DragFacts.

(* ===================================================================== *)
(** ** Facts about the shell: upload, analysis, the modal's props *)
(* ===================================================================== *)

Module AppFacts.

Import Types GeminiService Design Scenes ValidationFacts ClientFacts.

Lemma split_nonempty (sep : ascii) (s : string) : App.split sep s <> [].
Proof.
  destruct s as [|c s]; cbn; [discriminate|].
  destruct (Ascii.eqb c sep); [discriminate|].
  destruct (App.split sep s); discriminate.
Qed.

Lemma no_comma_cons (c : ascii) (s : string) :
  no_comma (String c s) -> Ascii.eqb c App.comma = false /\ no_comma s.
Proof.
  unfold no_comma. cbn. intros H. split.
  - apply Ascii.eqb_neq. intros ->. apply H. now left.
  - intros Hin. apply H. now right.
Qed.

Lemma split_without_comma (s : string) :
  no_comma s -> App.split App.comma s = [s].
Proof.
  induction s as [|c s IH]; intros H; [reflexivity|].
  apply no_comma_cons in H. destruct H as [Hc Hs].
  cbn. rewrite Hc, (IH Hs). reflexivity.
Qed.

Lemma split_append (m rest : string) :
  no_comma m ->
  App.split App.comma (m ++ rest) =
  match App.split App.comma rest with
  | [] => [m]
  | piece :: pieces => (m ++ piece) :: pieces
  end.
Proof.
  induction m as [|c m IH]; intros H.
  - cbn. pose proof (split_nonempty App.comma rest) as Hne.
    now destruct (App.split App.comma rest).
  - apply no_comma_cons in H. destruct H as [Hc Hm].
    cbn. rewrite Hc, (IH Hm).
    now destruct (App.split App.comma rest).
Qed.

(** X19: reading a file gives back its encoded bytes. For a reader
    result of the form data:<type>;base64,<bytes>, with no comma in the
    type or in the bytes, [fileToBase64] resolves to exactly the bytes
    (to the empty string for an empty file); for a result that holds no
    comma at all it resolves to [undefined]. *)
Theorem fileToBase64_strips_header (mime base64 other : string) :
  no_comma mime -> no_comma base64 -> no_comma other ->
  App.fileToBase64_onload (data_url mime base64) = Some base64 /\
  App.fileToBase64_onload other = None.
Proof.
  intros Hm Hb Ho. unfold App.fileToBase64_onload, data_url. split.
  - assert (Hd : no_comma "data:") by (unfold no_comma; cbn; intuition discriminate).
    assert (Hh : no_comma ";base64") by (unfold no_comma; cbn; intuition discriminate).
    rewrite (split_append "data:" _ Hd), (split_append mime _ Hm).
    change (";base64," ++ base64) with (";base64" ++ String App.comma base64).
    rewrite (split_append ";base64" _ Hh).
    cbn [App.split]. rewrite Ascii.eqb_refl.
    now rewrite (split_without_comma base64 Hb).
  - now rewrite (split_without_comma other Ho).
Qed.

Lemma fileToBase64_strips_header_witness :
  App.fileToBase64_onload (data_url "image/png" "iVBORw0KGgo=")
    = Some "iVBORw0KGgo=" /\
  App.fileToBase64_onload "data:" = None.
Proof.
  apply (fileToBase64_strips_header "image/png" "iVBORw0KGgo=" "data:");
    unfold no_comma; cbn; intuition discriminate.
Defined.

Section WithService.

Variable JSON_parse_result : string -> value + string.
Variable trim : string -> string.
Variable prompt : string.
Variable createObjectURL : App.File -> string.

(** X20: without a usable image no analysis is started. When no file is
    held, or the encoded bytes are missing or empty (the read is pending
    or failed, or the file was empty), the click only sets the guidance
    message; the outcome does not depend on the service, and the
    analysis, the file and the modal flag stay as they were. *)
Theorem analyze_click_needs_image
  (analyzeChart analyzeChart' : string -> string -> completion value)
  (st : App.State) :
  App.imageFile st = None \/ App.imageBase64 st = None \/
  App.imageBase64 st = Some "" ->
  App.handleAnalyzeClick analyzeChart st =
    App.setError (Some App.upload_first_message) st /\
  App.handleAnalyzeClick analyzeChart st =
    App.handleAnalyzeClick analyzeChart' st.
Proof.
  intros H. unfold App.handleAnalyzeClick, App.analyze_ready.
  destruct H as [H | [H | H]]; rewrite H.
  - destruct (App.imageBase64 st); now split.
  - now split.
  - destruct (App.imageFile st); now split.
Qed.

(** X21: an analysis click on a usable image ends with the busy flag
    cleared and exactly one of the two outcomes on display. Either the
    service call returned a value, which is the analysis, and no error
    is shown; or it threw, an error message is shown and no analysis is
    held, the one from an earlier click included. File, bytes and modal
    flag are untouched. *)
Theorem analyze_click_outcome
  (analyzeChart : string -> string -> completion value)
  (st : App.State) (b : string) (f : App.File) :
  App.imageBase64 st = Some b -> b <> "" -> App.imageFile st = Some f ->
  let st' := App.handleAnalyzeClick analyzeChart st in
  App.isLoading st' = false /\
  App.imageFile st' = App.imageFile st /\
  App.imageBase64 st' = App.imageBase64 st /\
  App.isModalOpen st' = App.isModalOpen st /\
  ((exists r, analyzeChart b (App.file_type f) = Normal r /\
              App.analysis st' = Some r /\ App.error st' = None) \/
   (exists t msg, analyzeChart b (App.file_type f) = Throw t /\
              App.analysis st' = None /\ App.error st' = Some msg)).
Proof.
  intros Hb Hne Hf. cbv zeta.
  unfold App.handleAnalyzeClick, App.analyze_ready. rewrite Hb, Hf.
  apply String.eqb_neq in Hne. rewrite Hne.
  destruct (analyzeChart b (App.file_type f)) as [r | [err | w]]; cbn;
    repeat split; auto.
  - left. exists r. now repeat split.
  - right. exists (ErrorObject err), (message err). now repeat split.
  - right. exists (OtherThrown w), "An unknown error occurred.".
    now repeat split.
Qed.

Lemma analyzeChart_Normal_validated
  (service : Request -> completion GenerateContentResponse)
  (img mime : string) (r : value) :
  analyzeChart JSON_parse_result trim service prompt img mime = Normal r ->
  validate r = Normal r.
Proof.
  unfold analyzeChart. intros H.
  destruct (analyzeChart_try JSON_parse_result trim service prompt img mime)
    as [v|t] eqn:Et; cbn in H.
  - injection H as <-. eapply analyzeChart_try_validated; eassumption.
  - destruct t; discriminate.
Qed.

Lemma step_keeps_validated (st : App.State) (ev : App.Event) :
  (forall r, App.analysis st = Some r -> validate r = Normal r) ->
  forall r, App.analysis (App.step JSON_parse_result trim prompt st ev) = Some r ->
  validate r = Normal r.
Proof.
  intros Hst r. destruct ev as [file | read | service | | | ]; cbn [App.step].
  - discriminate.
  - destruct read; apply Hst.
  - unfold App.handleAnalyzeClick.
    destruct (App.analyze_ready st) as [[b f]|]; [|apply Hst].
    destruct (analyzeChart JSON_parse_result trim service prompt b
                (App.file_type f)) as [v | [err | w]] eqn:E; cbn;
      try discriminate.
    intros [= <-]. eapply analyzeChart_Normal_validated; eassumption.
  - discriminate.
  - unfold App.expand_click.
    destruct (App.truthy_analysis _); apply Hst.
  - apply Hst.
Qed.

(** X22: the shell only ever holds, and hands to the viewer, results
    that passed the structure check. After any sequence of uploads,
    reads, analysis clicks (whatever the service does on each), clears
    and modal clicks, an analysis in the state is a value the check
    accepts; and when the modal is rendered its [result] prop is such a
    value, its bytes are the non-empty bytes held and its MIME type is
    the type of the file held. *)
Theorem shell_holds_validated_results (evs : list App.Event) :
  let st := App.run JSON_parse_result trim prompt evs App.initial in
  (forall r, App.analysis st = Some r -> validate r = Normal r) /\
  (forall props, App.modal_props createObjectURL st = Some props ->
     exists r f,
       ChartModal.result props = Some r /\ validate r = Normal r /\
       App.imageFile st = Some f /\
       ChartModal.mimeType props = App.file_type f /\
       App.imageBase64 st = Some (ChartModal.imageBase64 props) /\
       ChartModal.imageBase64 props <> "").
Proof.
  cbv zeta.
  assert (Hinv : forall evs st,
            (forall r, App.analysis st = Some r -> validate r = Normal r) ->
            forall r,
              App.analysis (App.run JSON_parse_result trim prompt evs st) = Some r ->
              validate r = Normal r).
  { clear evs. induction evs as [|ev evs IH]; intros st Hst; [exact Hst|].
    change (App.run JSON_parse_result trim prompt (ev :: evs) st)
      with (App.run JSON_parse_result trim prompt evs
              (App.step JSON_parse_result trim prompt st ev)).
    apply IH. now apply step_keeps_validated. }
  assert (H0 : forall r, App.analysis App.initial = Some r ->
                         validate r = Normal r) by discriminate.
  specialize (Hinv evs App.initial H0).
  split; [exact Hinv|].
  intros props. unfold App.modal_props.
  destruct (App.imageFile _) as [f|]; [|discriminate].
  destruct (App.analysis _) as [r|]; [|discriminate].
  destruct (App.imageBase64 _) as [b|]; [|discriminate].
  destruct (truthy r); [|discriminate]. cbn [andb].
  destruct (String.eqb_spec b ""); [discriminate|]. cbn [negb].
  intros [= <-]. exists r, f. cbn. repeat split; auto.
Qed.

(** X23: a payload the check refuses never reaches the screen. When the
    service answers a text that decodes to a value the check does not
    accept (and that is not null), the click ends with the message
    "Failed to analyze chart: Invalid analysis data structure received
    from API." as the error, with no analysis held, and with the modal
    not rendered. *)
Theorem refused_payload_shows_error_only
  (service : Request -> completion GenerateContentResponse)
  (st : App.State) (b : string) (f : App.File)
  (resp : GenerateContentResponse) (s : string) (v : value) :
  App.imageBase64 st = Some b -> b <> "" -> App.imageFile st = Some f ->
  service (analyze_request prompt b (App.file_type f)) = Normal resp ->
  response_text resp = Some s ->
  JSON_parse_result (trim s) = inl v ->
  accepts v = false -> v <> VNull -> v <> VUndefined ->
  let st' :=
    App.step JSON_parse_result trim prompt st (App.AnalyzeClick service) in
  App.error st' =
    Some (analysis_failed_prefix ++ invalid_structure_message) /\
  App.analysis st' = None /\
  App.isLoading st' = false /\
  App.modal_props createObjectURL st' = None.
Proof.
  intros Hb Hne Hf Hc Ht Hp Ha Hn Hu. cbv zeta. cbn [App.step].
  unfold App.handleAnalyzeClick, App.analyze_ready. rewrite Hb, Hf.
  apply String.eqb_neq in Hne. rewrite Hne.
  rewrite (analyzeChart_decoded _ _ _ _ _ _ _ _ _ Hc Ht Hp).
  rewrite validate_accepts, Ha. cbn [try_catch analyzeChart_catch].
  rewrite (rejection_message v Hn Hu).
  unfold App.modal_props. cbn. rewrite Hf. now repeat split.
Qed.

End WithService.

Lemma analyze_click_needs_image_witness :
  App.handleAnalyzeClick (fun _ _ => Normal sideways_drift)
    (App.upload_settle (Normal (Some ""))
       (App.upload_begin chart_file App.initial))
  = App.setError (Some App.upload_first_message)
      (App.upload_settle (Normal (Some ""))
         (App.upload_begin chart_file App.initial)).
Proof.
  apply (proj1 (analyze_click_needs_image
                  (fun _ _ => Normal sideways_drift)
                  (fun _ _ => Normal sideways_drift)
                  (App.upload_settle (Normal (Some ""))
                     (App.upload_begin chart_file App.initial))
                  (or_intror (or_intror eq_refl)))).
Defined.

Lemma shell_holds_validated_results_witness :
  App.analysis
    (App.run (decodes_to sideways_drift) no_trim "p"
       [App.Upload chart_file; App.FileRead (Normal (Some "iVBORw0KGgo="));
        App.AnalyzeClick (answers_text "{}"); App.Expand]
       App.initial) = Some sideways_drift /\
  validate sideways_drift = Normal sideways_drift.
Proof.
  split; [reflexivity|].
  apply (proj1 (shell_holds_validated_results (decodes_to sideways_drift)
                  no_trim "p" object_url
                  [App.Upload chart_file;
                   App.FileRead (Normal (Some "iVBORw0KGgo="));
                   App.AnalyzeClick (answers_text "{}"); App.Expand])).
  reflexivity.
Defined.

Lemma analyze_click_outcome_witness :
  App.isLoading
    (App.handleAnalyzeClick (fun _ _ => Throw (TypeError "fetch failed"))
       uploaded) = false.
Proof.
  refine (proj1 (analyze_click_outcome
    (fun _ _ => Throw (TypeError "fetch failed")) uploaded
    "iVBORw0KGgo=" chart_file eq_refl _ eq_refl)).
  discriminate.
Defined.

Lemma refused_payload_shows_error_only_witness :
  App.error
    (App.step (decodes_to strong_buy) no_trim "p" uploaded
       (App.AnalyzeClick (answers_text "{}")))
  = Some (analysis_failed_prefix ++ invalid_structure_message).
Proof.
  refine (proj1 (refused_payload_shows_error_only
    (decodes_to strong_buy) no_trim "p" object_url (answers_text "{}")
    uploaded "iVBORw0KGgo=" chart_file (mkResponse (Some "{}") None) "{}"
    strong_buy eq_refl _ eq_refl eq_refl eq_refl eq_refl eq_refl _ _));
    discriminate.
Defined.

End AppFacts.

(* ===================================================================== *)
(** ** A continuation that succeeds, from the service to the screen *)
(* ===================================================================== *)

Module ContinuationMore.

Import GeminiService ChartModal Design Scenes ClientFacts ContinuationFacts.

(** X24: a continuation that carries an image is shown as a PNG data
    URL of the first inline part. When the first candidate's parts hold
    a part with inline data, the click (with a result at hand and no
    request in flight) ends with the image source
    data:image/png;base64,<data of the first such part> on display,
    whatever MIME type that part declares, with the viewport reset, no
    error shown and the busy flag cleared. *)
Theorem continuation_shows_first_inline_part
  (generateContent : Request -> completion GenerateContentResponse)
  (generationPrompt : value -> string)
  (props : ChartModalProps) (analysis : value)
  (resp : GenerateContentResponse)
  (before after : list Part) (part : Part) (blob : Blob) (st : State) :
  result props = Some analysis ->
  isGenerating st = false ->
  generateContent
    (continuation_request generationPrompt (imageBase64 props)
       (ChartModal.mimeType props) analysis) = Normal resp ->
  first_candidate_parts resp = Normal (before ++ part :: after)%list ->
  Forall (fun p => inlineData p = None) before ->
  inlineData part = Some blob ->
  let st' :=
    handleGenerateContinuation
      (continueChart generateContent generationPrompt) props st in
  displayImageSrc props st' = ("data:image/png;base64," ++ data blob)%string /\
  scale st' = 1%Q /\ position st' = mkPoint 0 0 /\
  generationError st' = None /\ isGenerating st' = false /\
  generate_button_enabled st' = false.
Proof.
  intros Hr Hg Hc Hp Hb Hi. cbv zeta.
  assert (Hd : first_inline_data (before ++ part :: after) = Some (data blob)).
  { apply first_inline_data_Some. exists before, part, blob, after.
    now repeat split. }
  unfold handleGenerateContinuation, generation_begin. rewrite Hr, Hg.
  rewrite (continueChart_parts _ _ _ _ _ _ _ Hc Hp), Hd.
  now repeat split.
Qed.

Lemma continuation_shows_first_inline_part_witness :
  displayImageSrc chart_props
    (handleGenerateContinuation
       (continueChart
          (answers_parts
             [mkPart None (Some "Here it is.");
              mkPart (Some (mkBlob "/9j/4AAQ" "image/jpeg")) None;
              mkPart (Some (mkBlob "iVBORw0KGgo=" "image/png")) None])
          prompt_of)
       chart_props dragging_state)
  = "data:image/png;base64,/9j/4AAQ"%string.
Proof.
  refine (proj1 (continuation_shows_first_inline_part
    (answers_parts
       [mkPart None (Some "Here it is.");
        mkPart (Some (mkBlob "/9j/4AAQ" "image/jpeg")) None;
        mkPart (Some (mkBlob "iVBORw0KGgo=" "image/png")) None])
    prompt_of chart_props sideways_drift
    (mkResponse None
       (Some [mkCandidate (Some (mkContent (Some
          [mkPart None (Some "Here it is.");
           mkPart (Some (mkBlob "/9j/4AAQ" "image/jpeg")) None;
           mkPart (Some (mkBlob "iVBORw0KGgo=" "image/png")) None])))]))
    [mkPart None (Some "Here it is.")]
    [mkPart (Some (mkBlob "iVBORw0KGgo=" "image/png")) None]
    (mkPart (Some (mkBlob "/9j/4AAQ" "image/jpeg")) None)
    (mkBlob "/9j/4AAQ" "image/jpeg") dragging_state
    eq_refl eq_refl eq_refl eq_refl _ eq_refl)).
  repeat constructor.
Defined.

End ContinuationMore.
